(** * sapo: physics, collision and level recycling of the platformer

    A shallow embedding of [src/main.ts].  Every class becomes a module
    holding a record and the methods as functions from the old object to
    the new one; the objects a method mutates ([this], the game state) are
    threaded explicitly.

    A JavaScript [number] is modelled by an exact rational: rounding, NaN
    and the infinities of IEEE doubles are outside the model.  Assignments
    are compared with Leibniz equality (the stored expression itself),
    arithmetic identities with [==].  Where rounding decides a property,
    the code concerned is embedded a second time, over binary64 numbers,
    in the module [Binary64].

    [Math.random()] is an input: each function that draws a random number
    receives the drawn value as an argument.  Canvas drawing and audio
    have no effect on the simulated state and are left out. *)

From Stdlib Require Import QArith Lqa ZArith List Bool String Lia.
From Stdlib Require PrimFloat FloatOps SpecFloat Uint63.
Import PrimFloat.
Import ListNotations.
Open Scope Q_scope.

(** ** Numbers *)

Definition number : Type := Q.

Definition leb (a b : number) : bool := Qle_bool a b.

Definition ltb (a b : number) : bool :=
  (Qnum a * QDen b <? Qnum b * QDen a)%Z.

Definition geb (a b : number) : bool := leb b a.
Definition gtb (a b : number) : bool := ltb b a.

Declare Scope js_scope.
Delimit Scope js_scope with js.
Infix "<=?" := leb (at level 70, no associativity) : js_scope.
Infix "<?" := ltb (at level 70, no associativity) : js_scope.
Infix ">=?" := geb (at level 70, no associativity) : js_scope.
Infix ">?" := gtb (at level 70, no associativity) : js_scope.
Open Scope js_scope.

(** ** type GameState *)

Module GameState.

Inductive Status : Type := GAME | LOOSE.

Record t : Type := mk {
  cameraOffset : number;
  height : number;
  width : number;
  status : Status;
  points : number
}.

Definition set_cameraOffset (v : number) (s : t) : t :=
  mk v (height s) (width s) (status s) (points s).

Definition set_status (v : Status) (s : t) : t :=
  mk (cameraOffset s) (height s) (width s) v (points s).

End GameState.

(** ** class Dimension *)

Module Dimension.

Record t : Type := mk {
  x : number;
  y : number;
  width : number;
  height : number
}.

End Dimension.

(** ** interface RenderObject

    Only [getDimension] matters to the simulation; [render] draws. *)

Class RenderObject (A : Type) : Type := {
  getDimension : A -> Dimension.t
}.

(** ** class GameObject *)

Module GameObject.

Record t : Type := mk {
  x : number;
  y : number;
  width : number;
  height : number;
  color : string
}.

Definition set_x (v : number) (o : t) : t :=
  mk v (y o) (width o) (height o) (color o).

Definition set_y (v : number) (o : t) : t :=
  mk (x o) v (width o) (height o) (color o).

End GameObject.

(** ** class RectGameObject implements RenderObject *)

Module RectGameObject.

Record t : Type := mk {
  dimension : Dimension.t;
  color : string
}.

Definition new (x y width height : number) (color : string) : t :=
  mk (Dimension.mk x y width height) color.

End RectGameObject.

#[export] Instance RectGameObject_RenderObject : RenderObject RectGameObject.t := {
  getDimension := RectGameObject.dimension
}.

(** ** class MainCharacter extends GameObject

    The inherited fields live in [super].  The image is used for its size
    (constructor) and for drawing only. *)

Module MainCharacter.

Record t : Type := mk {
  super : GameObject.t;
  velocityX : number;
  velocityY : number;
  gravity : number;
  speed : number;
  jumpStrength : number;
  onGround : bool
}.

Definition x (c : t) : number := GameObject.x (super c).
Definition y (c : t) : number := GameObject.y (super c).
Definition width (c : t) : number := GameObject.width (super c).
Definition height (c : t) : number := GameObject.height (super c).

Definition set_super (v : GameObject.t) (c : t) : t :=
  mk v (velocityX c) (velocityY c) (gravity c) (speed c) (jumpStrength c)
     (onGround c).

Definition set_x (v : number) (c : t) : t :=
  set_super (GameObject.set_x v (super c)) c.

Definition set_y (v : number) (c : t) : t :=
  set_super (GameObject.set_y v (super c)) c.

Definition set_velocityX (v : number) (c : t) : t :=
  mk (super c) v (velocityY c) (gravity c) (speed c) (jumpStrength c)
     (onGround c).

Definition set_velocityY (v : number) (c : t) : t :=
  mk (super c) (velocityX c) v (gravity c) (speed c) (jumpStrength c)
     (onGround c).

Definition set_onGround (v : bool) (c : t) : t :=
  mk (super c) (velocityX c) (velocityY c) (gravity c) (speed c)
     (jumpStrength c) v.

(** [constructor(x, y, image)] with the image's [width] and [height]. *)
Definition new (x y imageWidth imageHeight : number) : t :=
  mk (GameObject.mk x y imageWidth imageHeight "red") 0 0 0.7 5 (-15) false.

(** *** update, statement by statement *)

(** [if (!this.onGround) this.velocityY += this.gravity;] *)
Definition applyGravity (c : t) : t :=
  if negb (onGround c)
  then set_velocityY (velocityY c + gravity c) c
  else c.

(** [if (this.y >= state.cameraOffset + state.height) state.status = 'LOOSE';] *)
Definition checkLoose (c : t) (state : GameState.t) : GameState.t :=
  if y c >=? GameState.cameraOffset state + GameState.height state
  then GameState.set_status GameState.LOOSE state
  else state.

(** [this.x += this.velocityX;] and the wrap at the viewport's edges. *)
Definition moveX (state : GameState.t) (c : t) : t :=
  let c := set_x (x c + velocityX c) c in
  if x c <? 0 then set_x (GameState.width state) c
  else if x c >? GameState.width state then set_x 0 c
  else c.

(** [this.y += this.velocityY;] *)
Definition moveY (c : t) : t :=
  set_y (y c + velocityY c) c.

(** The condition of the [if] in the loop over the platforms. *)
Definition hits (c : t) (dim : Dimension.t) : bool :=
  (y c + height c <=? Dimension.y dim) &&
  (y c + height c + velocityY c >=? Dimension.y dim) &&
  (x c + width c >? Dimension.x dim) &&
  (x c <? Dimension.x dim + Dimension.width dim).

(** The body of that [if]. *)
Definition land (dim : Dimension.t) (c : t) : t :=
  let c := set_onGround true c in
  let c := set_y (Dimension.y dim - height c) c in
  set_velocityY 0 c.

(** One iteration of [for (const platform of platforms)]. *)
Definition collideWith {A : Type} `{RenderObject A} (c : t) (platform : A) : t :=
  let dim := getDimension platform in
  if hits c dim then land dim c else c.

(** [this.onGround = false;] followed by the loop. *)
Definition collide {A : Type} `{RenderObject A} (platforms : list A) (c : t) : t :=
  fold_left collideWith platforms (set_onGround false c).

(** The character as it stands when the loop over the platforms starts,
    still with the [onGround] it had. *)
Definition moved (state : GameState.t) (c : t) : t :=
  moveY (moveX state (applyGravity c)).

Definition update {A : Type} `{RenderObject A}
  (platforms : list A) (state : GameState.t) (c : t) : t * GameState.t :=
  let c := applyGravity c in
  let state := checkLoose c state in
  let c := moveX state c in
  let c := moveY c in
  let c := collide platforms c in
  (c, state).

Definition moveLeft (c : t) : t := set_velocityX (- speed c) c.

Definition moveRight (c : t) : t := set_velocityX (speed c) c.

Definition stopMoving (c : t) : t := set_velocityX 0 c.

Definition jump (c : t) : t :=
  if onGround c
  then set_onGround false (set_velocityY (jumpStrength c) c)
  else c.

End MainCharacter.

(** ** getRandomFloat, with the value of [Math.random()] as [rnd] *)

Definition getRandomFloat (rnd min max : number) : number :=
  rnd * (max - min) + min.

(** ** class Level *)

Module Level.

Record t : Type := mk {
  platforms : list RectGameObject.t;
  startScrolling : bool
}.

Definition new : t := mk [] false.

Definition set_platforms (v : list RectGameObject.t) (l : t) : t :=
  mk v (startScrolling l).

Definition set_startScrolling (v : bool) (l : t) : t :=
  mk (platforms l) v.

Definition addPlatform (platform : RectGameObject.t) (l : t) : t :=
  set_platforms (platforms l ++ [platform]) l.

(** The platform [spawnPlatform] builds; [height] is the optional argument. *)
Definition spawned (rnd : number) (state : GameState.t) (height : option number)
  : RectGameObject.t :=
  RectGameObject.new
    (getRandomFloat rnd 0 (GameState.width state - 80))
    (match height with
     | Some h => h
     | None => - GameState.cameraOffset state
     end)
    80 10 "brown".

Definition spawnPlatform (rnd : number) (state : GameState.t)
  (height : option number) (l : t) : t :=
  set_platforms (platforms l ++ [spawned rnd state height]) l.

(** The value the callback of [filter] calls [drop]: the platform is still
    above the bottom of the viewport, and is kept. *)
Definition drop (state : GameState.t) (p : RectGameObject.t) : bool :=
  Dimension.y (getDimension p) + GameState.cameraOffset state
    <? GameState.height state.

(** [this.platforms.filter(...)], whose callback also writes the captured
    variable [spawn]: the result is the filtered list and the final [spawn]. *)
Fixpoint filterPlatforms (state : GameState.t) (ps : list RectGameObject.t)
  (spawn : bool) : list RectGameObject.t * bool :=
  match ps with
  | [] => ([], spawn)
  | p :: rest =>
      let spawn := if negb (drop state p) then true else spawn in
      let (kept, spawn) := filterPlatforms state rest spawn in
      (if drop state p then p :: kept else kept, spawn)
  end.

(** The first statement of [update]: the latch and the scroll step. *)
Definition scroll (player : GameObject.t) (state : GameState.t) (l : t)
  : t * GameState.t :=
  let distance := GameState.height state * 0.65 in
  if startScrolling l || (GameObject.y player <=? distance)
  then (set_startScrolling true l,
        GameState.set_cameraOffset (GameState.cameraOffset state + 2) state)
  else (l, state).

Definition update (rnd : number) (player : GameObject.t) (state : GameState.t)
  (l : t) : t * GameState.t :=
  let (l, state) := scroll player state l in
  let (kept, spawn) := filterPlatforms state (platforms l) false in
  let l := set_platforms kept l in
  let l := if spawn then spawnPlatform rnd state None l else l in
  (l, state).

Definition reset (l : t) : t := mk [] false.

End Level.

(** ** The game loop *)

(** The three objects a frame works on. *)
Record World : Type := mkWorld {
  state : GameState.t;
  level : Level.t;
  player : MainCharacter.t
}.

(** One call of [gameLoop].  [rnd] is the random number of this frame's
    [spawnPlatform], if it spawns.  The boolean tells whether the call
    registered itself with [requestAnimationFrame].  In the ['LOOSE'] case
    the click listener may later call [startGame], which works on objects
    of its own. *)
Definition gameLoop (handlePlayerInput : MainCharacter.t -> MainCharacter.t)
  (rnd : number) (w : World) : World * bool :=
  match GameState.status (state w) with
  | GameState.GAME =>
      let player := handlePlayerInput (player w) in
      let (player, state) :=
        MainCharacter.update (Level.platforms (level w)) (state w) player in
      let (level, state) :=
        Level.update rnd (MainCharacter.super player) state (level w) in
      (mkWorld state level player, true)
  | GameState.LOOSE =>
      (mkWorld (GameState.set_cameraOffset 0 (state w)) (level w) (player w),
       false)
  end.

(** What one animation frame brings from outside: the input handler as it
    acts with the keys held at that time, and the random number. *)
Record Frame : Type := mkFrame {
  input : MainCharacter.t -> MainCharacter.t;
  random : number
}.

(** The calls of [gameLoop] chained by [requestAnimationFrame]: a call that
    did not register itself ends the chain. *)
Fixpoint run (frames : list Frame) (w : World) : World :=
  match frames with
  | [] => w
  | f :: rest =>
      let (w', again) := gameLoop (input f) (random f) w in
      if again then run rest w' else w'
  end.

(** The camera offset at the start of the run and after each call. *)
Fixpoint offsets (frames : list Frame) (w : World) : list number :=
  GameState.cameraOffset (state w) ::
  match frames with
  | [] => []
  | f :: rest =>
      let (w', again) := gameLoop (input f) (random f) w in
      if again then offsets rest w'
      else [GameState.cameraOffset (state w')]
  end.

(** ** startGame *)

(** The [keys] object: the last value written for a key, [undefined]
    (falsy) when none was. *)
Definition Keys : Type := list (string * bool).

Definition held (keys : Keys) (key : string) : bool :=
  match find (fun kv => String.eqb (fst kv) key) keys with
  | Some kv => snd kv
  | None => false
  end.

Definition keydown (key : string) (keys : Keys) : Keys := (key, true) :: keys.
Definition keyup (key : string) (keys : Keys) : Keys := (key, false) :: keys.

Definition handlePlayerInput (keys : Keys) (player : MainCharacter.t)
  : MainCharacter.t :=
  let player :=
    if held keys "ArrowLeft" || held keys "a" then MainCharacter.moveLeft player
    else if held keys "ArrowRight" || held keys "d"
         then MainCharacter.moveRight player
         else MainCharacter.stopMoving player in
  if held keys "ArrowUp" || held keys "w" then MainCharacter.jump player
  else player.

(** The world [startGame] hands to the first [gameLoop], for an image of
    the given size; [rnd i] is the random number of the [i]-th seeded
    platform. *)
Definition startGame (imageWidth imageHeight : number) (rnd : nat -> number)
  : World :=
  let state := GameState.mk 0 700 400 GameState.GAME 0 in
  let player :=
    MainCharacter.new
      ((GameState.width state - imageWidth) / 2)
      (GameState.height state - imageWidth * 2)
      imageWidth imageHeight in
  let level := Level.new in
  let level :=
    Level.addPlatform
      (RectGameObject.new (-20) (GameState.height state - 10)
         (GameState.width state + 40) 10 "green") level in
  let level :=
    fold_left
      (fun l i =>
         Level.spawnPlatform (rnd i) state
           (Some (GameState.height state - 20 - inject_Z (Z.of_nat i) * 100)) l)
      (seq 1 6) level in
  mkWorld state level (handlePlayerInput [] player).

(** ** The same code over binary64 numbers

    [MainCharacter.update] and [randomIntFromInterval] with a [number]
    that is an IEEE double: every operation rounds and every comparison is
    the IEEE one.  [Character] holds the fields of [MainCharacter] and of
    the [GameObject] it extends. *)

Module Binary64.

Definition number : Type := float.

Module State.

Record t : Type := mk {
  cameraOffset : number;
  height : number;
  width : number;
  status : GameState.Status;
  points : number
}.

Definition set_status (v : GameState.Status) (s : t) : t :=
  mk (cameraOffset s) (height s) (width s) v (points s).

End State.

Module Dim.

Record t : Type := mk {
  x : number;
  y : number;
  width : number;
  height : number
}.

End Dim.

Module Rect.

Record t : Type := mk {
  dimension : Dim.t;
  color : string
}.

Definition new (x y width height : number) (color : string) : t :=
  mk (Dim.mk x y width height) color.

End Rect.

Module Character.

Record t : Type := mk {
  x : number;
  y : number;
  width : number;
  height : number;
  color : string;
  velocityX : number;
  velocityY : number;
  gravity : number;
  speed : number;
  jumpStrength : number;
  onGround : bool
}.

Definition set_x (v : number) (c : t) : t :=
  mk v (y c) (width c) (height c) (color c) (velocityX c) (velocityY c)
     (gravity c) (speed c) (jumpStrength c) (onGround c).

Definition set_y (v : number) (c : t) : t :=
  mk (x c) v (width c) (height c) (color c) (velocityX c) (velocityY c)
     (gravity c) (speed c) (jumpStrength c) (onGround c).

Definition set_velocityY (v : number) (c : t) : t :=
  mk (x c) (y c) (width c) (height c) (color c) (velocityX c) v
     (gravity c) (speed c) (jumpStrength c) (onGround c).

Definition set_onGround (v : bool) (c : t) : t :=
  mk (x c) (y c) (width c) (height c) (color c) (velocityX c) (velocityY c)
     (gravity c) (speed c) (jumpStrength c) v.

(** [if (!this.onGround) this.velocityY += this.gravity;] *)
Definition applyGravity (c : t) : t :=
  if negb (onGround c)
  then set_velocityY (velocityY c + gravity c)%float c
  else c.

(** [if (this.y >= state.cameraOffset + state.height) state.status = 'LOOSE';] *)
Definition checkLoose (c : t) (state : State.t) : State.t :=
  if (State.cameraOffset state + State.height state <=? y c)%float
  then State.set_status GameState.LOOSE state
  else state.

(** [this.x += this.velocityX;] and the wrap at the viewport's edges. *)
Definition moveX (state : State.t) (c : t) : t :=
  let c := set_x (x c + velocityX c)%float c in
  if (x c <? 0)%float then set_x (State.width state) c
  else if (State.width state <? x c)%float then set_x 0%float c
  else c.

(** [this.y += this.velocityY;] *)
Definition moveY (c : t) : t :=
  set_y (y c + velocityY c)%float c.

(** The condition of the [if] in the loop over the platforms. *)
Definition hits (c : t) (dim : Dim.t) : bool :=
  (y c + height c <=? Dim.y dim)%float &&
  (Dim.y dim <=? y c + height c + velocityY c)%float &&
  (Dim.x dim <? x c + width c)%float &&
  (x c <? Dim.x dim + Dim.width dim)%float.

(** The body of that [if]. *)
Definition land (dim : Dim.t) (c : t) : t :=
  let c := set_onGround true c in
  let c := set_y (Dim.y dim - height c)%float c in
  set_velocityY 0%float c.

(** One iteration of [for (const platform of platforms)]. *)
Definition collideWith (c : t) (platform : Rect.t) : t :=
  let dim := Rect.dimension platform in
  if hits c dim then land dim c else c.

Definition update (platforms : list Rect.t) (state : State.t) (c : t)
  : t * State.t :=
  let c := applyGravity c in
  let state := checkLoose c state in
  let c := moveX state c in
  let c := moveY c in
  let c := set_onGround false c in
  let c := fold_left collideWith platforms c in
  (c, state).

End Character.

(** [Math.floor]: the greatest whole number not above [x]; zeros,
    infinities and NaN are returned as they are. *)
Definition floor (x : number) : number :=
  match FloatOps.Prim2SF x with
  | SpecFloat.S754_finite negative m e =>
      if (0 <=? e)%Z then x
      else
        let d := (2 ^ (- e))%Z in
        let q := (Z.pos m / d)%Z in
        if negative
        then (- of_uint63
                  (Uint63.of_Z (if (Z.pos m mod d =? 0)%Z then q else q + 1)%Z))%float
        else of_uint63 (Uint63.of_Z q)
  | _ => x
  end.

(** [randomIntFromInterval], with the value of [Math.random()] as [rnd]. *)
Definition randomIntFromInterval (rnd min max : number) : number :=
  floor (rnd * (max - min + 1) + min)%float.

(** [randomIntFromInterval(1, sounds.length) - 1], the index with which
    [gameLoop] and [startGame] pick a sound out of an array of the given
    length. *)
Definition soundIndex (rnd length : number) : number :=
  (randomIntFromInterval rnd 1 length - 1)%float.

(** The largest value [Math.random()] can return: [1 - 2^-53]. *)
Definition largestRandom : number := (1 - 0x1p-53)%float.

End Binary64.

(** ** Drawing

    The calls a frame makes on the canvas context, in order.  [fillRect]
    and [fillText] carry the styles that were set on the context just
    before the call. *)

Inductive Draw : Type :=
| clearRect (x y w h : number)
| fillRect (fillStyle : string) (x y w h : number)
| drawImage (sx sy sw sh dx dy dw dh : number)
| fillText (font fillStyle textAlign textBaseline text : string) (x y : number).

(** [GameObject.render] *)
Definition renderGameObject (o : GameObject.t) (state : GameState.t) : Draw :=
  fillRect (GameObject.color o)
    (GameObject.x o) (GameObject.y o + GameState.cameraOffset state)
    (GameObject.width o) (GameObject.height o).

(** [RectGameObject.render] *)
Definition renderRectGameObject (o : RectGameObject.t) (state : GameState.t)
  : Draw :=
  fillRect (RectGameObject.color o)
    (Dimension.x (RectGameObject.dimension o))
    (Dimension.y (RectGameObject.dimension o) + GameState.cameraOffset state)
    (Dimension.width (RectGameObject.dimension o))
    (Dimension.height (RectGameObject.dimension o)).

(** [MainCharacter.render].  The size of the image is the [width] and
    [height] the constructor copied from it. *)
Definition renderMainCharacter (c : MainCharacter.t) (state : GameState.t)
  : Draw :=
  drawImage 0 0 (MainCharacter.width c) (MainCharacter.height c)
    (MainCharacter.x c) (MainCharacter.y c + GameState.cameraOffset state)
    (MainCharacter.width c) (MainCharacter.height c).

(** [Level.render] *)
Definition renderLevel (l : Level.t) (state : GameState.t) : list Draw :=
  map (fun platform => renderRectGameObject platform state) (Level.platforms l).

(** ** The final screen of [gameLoop] *)

Definition buttonWidth : number := 200.
Definition buttonHeight : number := 60.

Definition buttonX (state : GameState.t) : number :=
  (GameState.width state - buttonWidth) / 2.

Definition buttonY (state : GameState.t) : number :=
  (GameState.height state - buttonHeight) / 2 + 80.

Definition tryAgainButton (state : GameState.t) : RectGameObject.t :=
  RectGameObject.new (buttonX state) (buttonY state) buttonWidth buttonHeight
    "red".

Definition isMouseOnButton (state : GameState.t) (mouseX mouseY : number)
  : bool :=
  (mouseX >=? buttonX state) &&
  (mouseX <=? buttonX state + buttonWidth) &&
  (mouseY >=? buttonY state) &&
  (mouseY <=? buttonY state + buttonHeight).

(** [gameLoop] once more, this time with what it draws on a canvas of the
    given size. *)
Definition gameLoopDrawn (canvasWidth canvasHeight : number)
  (handlePlayerInput : MainCharacter.t -> MainCharacter.t)
  (rnd : number) (w : World) : World * bool * list Draw :=
  match GameState.status (state w) with
  | GameState.GAME =>
      let cleared := clearRect 0 0 canvasWidth canvasHeight in
      let player := handlePlayerInput (player w) in
      let (player, state) :=
        MainCharacter.update (Level.platforms (level w)) (state w) player in
      let drawnLevel := renderLevel (level w) state in
      let (level, state) :=
        Level.update rnd (MainCharacter.super player) state (level w) in
      let drawnPlayer := renderMainCharacter player state in
      (mkWorld state level player, true,
       cleared :: drawnLevel ++ [drawnPlayer])
  | GameState.LOOSE =>
      let cleared := clearRect 0 0 canvasWidth canvasHeight in
      let text :=
        fillText "30px Arial" "red" "center" "middle" "You loose"
          (canvasWidth / 2) (canvasHeight / 2) in
      let state := GameState.set_cameraOffset 0 (state w) in
      let button := renderRectGameObject (tryAgainButton state) state in
      let label :=
        fillText "20px Arial" "white" "center" "middle" "Try Again"
          (buttonX state + buttonWidth / 2) (buttonY state + buttonHeight / 2) in
      (mkWorld state (level w) (player w), false,
       [cleared; text; button; label])
  end.

(** * Vocabulary of the properties *)

(** The landing condition in the words of the specification, for the
    character [c] as it is just before [this.y += this.velocityY]: its
    bottom edge is above the top edge of the platform, is at or below it
    once [velocityY] is added, and the horizontal extents overlap. *)
Definition landingCondition (c : MainCharacter.t) (dim : Dimension.t) : Prop :=
  MainCharacter.y c + MainCharacter.height c < Dimension.y dim /\
  Dimension.y dim
    <= MainCharacter.y c + MainCharacter.velocityY c + MainCharacter.height c /\
  Dimension.x dim < MainCharacter.x c + MainCharacter.width c /\
  MainCharacter.x c < Dimension.x dim + Dimension.width dim.

(** What the loop over the platforms [ps] makes of the character [c0]:
    it leaves it untouched, no platform passing the test, or it leaves it
    standing on one of the platforms. *)
Inductive Outcome {A : Type} `{RenderObject A} (ps : list A)
  (c0 c : MainCharacter.t) : Prop :=
| Missed :
    c = c0 ->
    Forall (fun p => MainCharacter.hits c0 (getDimension p) = false) ps ->
    Outcome ps c0 c
| Landed (p : A) :
    In p ps ->
    MainCharacter.onGround c = true ->
    MainCharacter.velocityY c = 0 ->
    MainCharacter.y c = Dimension.y (getDimension p) - MainCharacter.height c0 ->
    MainCharacter.x c = MainCharacter.x c0 ->
    MainCharacter.height c = MainCharacter.height c0 ->
    MainCharacter.width c = MainCharacter.width c0 ->
    Outcome ps c0 c.

(** The character [c], which entered the loop as [c0], stands at the
    height of the top edge of [q]. *)
Definition StandsOn {A : Type} `{RenderObject A} (q : A)
  (c0 c : MainCharacter.t) : Prop :=
  MainCharacter.onGround c = true /\
  MainCharacter.velocityY c = 0 /\
  MainCharacter.y c == Dimension.y (getDimension q) - MainCharacter.height c0 /\
  MainCharacter.height c = MainCharacter.height c0.

(** A platform has scrolled past the bottom of the viewport: its
    screen-space [y] is not above the viewport's height. *)
Definition scrolledPast (s : GameState.t) (p : RectGameObject.t) : bool :=
  GameState.height s <=? Dimension.y (getDimension p) + GameState.cameraOffset s.

(** Every platform of the level is above the bottom of the viewport:
    its screen-space [y] is less than the viewport's height. *)
Definition aboveBottom (s : GameState.t) (l : Level.t) : Prop :=
  Forall (fun p => Dimension.y (getDimension p) + GameState.cameraOffset s
                   < GameState.height s)
    (Level.platforms l).

(** No value of the list is smaller than the one before it. *)
Definition neverDecreases (os : list number) : Prop :=
  forall (i : nat) (a b : number),
    nth_error os i = Some a -> nth_error os (S i) = Some b -> a <= b.

(** ** Sample data *)

Definition viewport : GameState.t := GameState.mk 0 700 400 GameState.GAME 0.

(** A falling character whose bottom edge is at 40 and which moves 5.7
    units in its next frame, and two platforms below it. *)
Definition fallingCharacter : MainCharacter.t :=
  MainCharacter.mk (GameObject.mk 180 0 40 40 "red") 0 5 0.7 5 (-15) false.

Definition nearPlatform : RectGameObject.t :=
  RectGameObject.new 160 42 80 10 "brown".

Definition farPlatform : RectGameObject.t :=
  RectGameObject.new 160 50 80 10 "brown".

(** A character early in a jump, about to leave the viewport on the
    right, and one below the viewport. *)
Definition risingCharacter : MainCharacter.t :=
  MainCharacter.mk (GameObject.mk 398 560 40 40 "red") 5 (-9.4) 0.7 5 (-15) false.

Definition fallenCharacter : MainCharacter.t :=
  MainCharacter.mk (GameObject.mk 180 705 40 40 "red") 0 (-30) 0.7 5 (-15) false.


(** Over binary64 numbers: a character of height 1 falling onto a platform
    whose top edge is at 0.1. *)
Definition viewport64 : Binary64.State.t :=
  Binary64.State.mk 0%float 700%float 400%float GameState.GAME 0%float.

#[warnings="-inexact-float"]
Definition smallCharacter64 : Binary64.Character.t :=
  Binary64.Character.mk 0%float (-2)%float 1%float 1%float "red"
    0%float 0%float 0.7%float 5%float (-15)%float false.

#[warnings="-inexact-float"]
Definition thinPlatform64 : Binary64.Rect.t :=
  Binary64.Rect.new 0%float 0.1%float 80%float 10%float "brown".

(** [startWorld] is the start of a game with an image of 40 by 40, every
    random number being 0.5.  With the up key held the character lands on
    the ground, jumps to the first platform and from there above the
    scroll threshold (47 frames); with the left key held it then falls out
    of the viewport (50 frames), and one more call draws the final screen. *)
Definition startWorld : World := startGame 40 40 (fun _ => 0.5).

Definition upFrame : Frame :=
  mkFrame (handlePlayerInput (keydown "ArrowUp" [])) 0.5.

Definition leftFrame : Frame :=
  mkFrame
    (handlePlayerInput
       (keydown "ArrowLeft" (keyup "ArrowUp" (keydown "ArrowUp" []))))
    0.5.

Definition climb : list Frame := repeat upFrame 47.
Definition fall : list Frame := repeat leftFrame 50.

(** [fallenWorld] is a world late in such a fall: the camera has scrolled
    by 100 and the character, at [y = 820], is below
    [cameraOffset + height = 800]. *)
Definition fallenWorld : World :=
  mkWorld (GameState.mk 100 700 400 GameState.GAME 0)
    (Level.mk [RectGameObject.new 160 (-20) 80 10 "brown";
               RectGameObject.new 160 599 80 10 "brown";
               RectGameObject.new 160 (-100) 80 10 "brown"] true)
    (MainCharacter.mk (GameObject.mk 340 820 40 40 "red") (-5) 24 0.7 5 (-15)
       false).

(** * Properties *)

(** ** The comparisons *)

Lemma leb_le (a b : number) : (a <=? b) = true <-> a <= b.
Proof. apply Qle_bool_iff. Qed.

Lemma ltb_lt (a b : number) : (a <? b) = true <-> a < b.
Proof. unfold ltb, Qlt. apply Z.ltb_lt. Qed.

Lemma leb_gt (a b : number) : (a <=? b) = false <-> b < a.
Proof.
  rewrite <- not_true_iff_false, leb_le. split.
  - apply Qnot_le_lt.
  - apply Qlt_not_le.
Qed.

Lemma ltb_ge (a b : number) : (a <? b) = false <-> b <= a.
Proof.
  rewrite <- not_true_iff_false, ltb_lt. split.
  - apply Qnot_lt_le.
  - apply Qle_not_lt.
Qed.

Lemma geb_ge (a b : number) : (a >=? b) = true <-> b <= a.
Proof. apply leb_le. Qed.

Lemma gtb_gt (a b : number) : (a >? b) = true <-> b < a.
Proof. apply ltb_lt. Qed.

Lemma ltb_negb_leb (a b : number) : (a <? b) = negb (b <=? a).
Proof.
  destruct (b <=? a) eqn:E; simpl.
  - apply ltb_ge, leb_le, E.
  - apply ltb_lt, leb_gt, E.
Qed.

(** ** What the statements of [update] leave alone *)

Section UpdateFrame.

Import MainCharacter.

Lemma moveX_width_only (s1 s2 : GameState.t) (c : t) :
  GameState.width s1 = GameState.width s2 -> moveX s1 c = moveX s2 c.
Proof. unfold moveX. intros ->. reflexivity. Qed.

Lemma checkLoose_width (c : t) (s : GameState.t) :
  GameState.width (checkLoose c s) = GameState.width s.
Proof. unfold checkLoose. destruct (_ >=? _); reflexivity. Qed.

Lemma checkLoose_cameraOffset (c : t) (s : GameState.t) :
  GameState.cameraOffset (checkLoose c s) = GameState.cameraOffset s.
Proof. unfold checkLoose. destruct (_ >=? _); reflexivity. Qed.

(** [update] is the loop over the platforms run on [moved], next to the
    state of the loss check. *)
Lemma update_unfold {A : Type} `{RenderObject A}
  (platforms : list A) (s : GameState.t) (c : t) :
  update platforms s c = (collide platforms (moved s c), checkLoose (applyGravity c) s).
Proof.
  unfold update, moved.
  rewrite (moveX_width_only _ s) by apply checkLoose_width.
  reflexivity.
Qed.

Lemma applyGravity_y (c : t) : y (applyGravity c) = y c.
Proof. unfold applyGravity. destruct (onGround c); reflexivity. Qed.

Lemma applyGravity_x (c : t) : x (applyGravity c) = x c.
Proof. unfold applyGravity. destruct (onGround c); reflexivity. Qed.

Lemma applyGravity_velocityX (c : t) : velocityX (applyGravity c) = velocityX c.
Proof. unfold applyGravity. destruct (onGround c); reflexivity. Qed.

Lemma applyGravity_height (c : t) : height (applyGravity c) = height c.
Proof. unfold applyGravity. destruct (onGround c); reflexivity. Qed.

Lemma moveX_y (s : GameState.t) (c : t) : y (moveX s c) = y c.
Proof. unfold moveX. destruct (_ <? _); [|destruct (_ >? _)]; reflexivity. Qed.

Lemma moveX_velocityY (s : GameState.t) (c : t) :
  velocityY (moveX s c) = velocityY c.
Proof. unfold moveX. destruct (_ <? _); [|destruct (_ >? _)]; reflexivity. Qed.

Lemma moveX_height (s : GameState.t) (c : t) : height (moveX s c) = height c.
Proof. unfold moveX. destruct (_ <? _); [|destruct (_ >? _)]; reflexivity. Qed.

Lemma moved_y (s : GameState.t) (c : t) :
  y (moved s c) = y c + velocityY (applyGravity c).
Proof.
  unfold moved, moveY.
  change (y (set_y ?v _)) with v.
  now rewrite moveX_y, moveX_velocityY, applyGravity_y.
Qed.

Lemma moved_velocityY (s : GameState.t) (c : t) :
  velocityY (moved s c) = velocityY (applyGravity c).
Proof. unfold moved, moveY. apply moveX_velocityY. Qed.

Lemma moved_height (s : GameState.t) (c : t) : height (moved s c) = height c.
Proof.
  unfold moved, moveY.
  change (height (set_y ?v ?d)) with (height d).
  now rewrite moveX_height, applyGravity_height.
Qed.

Lemma moved_x (s : GameState.t) (c : t) : x (moved s c) = x (moveX s (applyGravity c)).
Proof. reflexivity. Qed.

(** *** The loop over the platforms *)

Context {A : Type} `{RenderObject A}.

Lemma collideWith_x (c : t) (p : A) : x (collideWith c p) = x c.
Proof. unfold collideWith. destruct (hits _ _); reflexivity. Qed.

Lemma loop_x (ps : list A) (c : t) : x (fold_left collideWith ps c) = x c.
Proof.
  revert c. induction ps as [|p ps IH]; intros c; simpl; [reflexivity|].
  now rewrite IH, collideWith_x.
Qed.

Lemma Outcome_snoc (ps : list A) (p : A) (c0 c : t) :
  Outcome ps c0 c -> Outcome (ps ++ [p]) c0 (collideWith c p).
Proof.
  intros O. unfold collideWith.
  destruct (hits c (getDimension p)) eqn:Hh.
  - apply (Landed _ _ _ p); try reflexivity.
    + apply in_or_app. right. left. reflexivity.
    + destruct O as [-> _|q _ _ _ _ _ Hc _]; simpl.
      * reflexivity.
      * unfold land. simpl. unfold height in *. simpl. now rewrite Hc.
    + destruct O as [-> _|q _ _ _ _ Hx _ _]; [reflexivity|exact Hx].
    + destruct O as [-> _|q _ _ _ _ _ Hc _]; [reflexivity|exact Hc].
    + destruct O as [-> _|q _ _ _ _ _ _ Hw]; [reflexivity|exact Hw].
  - destruct O as [-> Hall|q Hin Hg Hv Hy Hx Hc Hw].
    + apply Missed; [reflexivity|].
      apply Forall_app. split; [exact Hall|].
      constructor; [exact Hh|constructor].
    + apply (Landed _ _ _ q); try assumption.
      apply in_or_app. left. exact Hin.
Qed.

Lemma loop_Outcome (ps : list A) (c0 : t) :
  Outcome ps c0 (fold_left collideWith ps c0).
Proof.
  induction ps as [|p ps IH] using rev_ind.
  - apply Missed; [reflexivity|constructor].
  - rewrite fold_left_app. simpl. apply Outcome_snoc, IH.
Qed.

End UpdateFrame.

(** ** Landing *)

Section Landing.

Import MainCharacter.

Context {A : Type} `{RenderObject A}.

Lemma StandsOn_step (q p : A) (c0 c : t) :
  StandsOn q c0 c -> StandsOn q c0 (collideWith c p).
Proof.
  intros (Hg & Hv & Hy & Hh). unfold collideWith.
  destruct (hits c (getDimension p)) eqn:Hhit; [|repeat split; assumption].
  unfold hits in Hhit.
  apply andb_true_iff in Hhit as [Hhit _].
  apply andb_true_iff in Hhit as [Hhit _].
  apply andb_true_iff in Hhit as [Hle Hge].
  apply leb_le in Hle. apply geb_ge in Hge.
  rewrite Hv, Hh in Hge. rewrite Hh in Hle.
  unfold StandsOn, land.
  split; [reflexivity|]. split; [reflexivity|]. split; [|exact Hh].
  change (Dimension.y (getDimension p) - height c
          == Dimension.y (getDimension q) - height c0).
  rewrite Hh. lra.
Qed.

Lemma StandsOn_loop (q : A) (ps : list A) (c0 c : t) :
  StandsOn q c0 c -> StandsOn q c0 (fold_left collideWith ps c).
Proof.
  revert c. induction ps as [|p ps IH]; intros c S; simpl; [exact S|].
  apply IH, StandsOn_step, S.
Qed.

Lemma StandsOn_first (q : A) (ps : list A) (c0 : t) :
  find (fun p => hits c0 (getDimension p)) ps = Some q ->
  StandsOn q c0 (fold_left collideWith ps c0).
Proof.
  induction ps as [|p ps IH]; simpl; [discriminate|].
  unfold collideWith at 2.
  destruct (hits c0 (getDimension p)) eqn:Hhit.
  - intros [= ->]. apply StandsOn_loop.
    unfold StandsOn, land.
    split; [reflexivity|]. split; [reflexivity|]. split; [|reflexivity].
    apply Qeq_refl.
  - exact IH.
Qed.

End Landing.


(** Two platforms that both pass the test at the start of the loop: the
    character ends on the first one, at [47 - 40], not at [50 - 40]. *)
Example first_platform_fixes_y :
  let lower := RectGameObject.new 160 47 80 10 "brown" in
  let c := MainCharacter.moved viewport fallingCharacter in
  MainCharacter.hits c (getDimension lower) = true /\
  MainCharacter.hits c (getDimension farPlatform) = true /\
  MainCharacter.y
    (fst (MainCharacter.update [lower; farPlatform] viewport fallingCharacter))
  = 47 - 40.
Proof. vm_compute. repeat split. Qed.

(** C1, as stated, fails: the bottom edge of [fallingCharacter] goes from
    40 to 45.7 across the top edge (42) of [nearPlatform], yet [update]
    leaves the character airborne, because the test of the code compares
    the position after the move with the platform, and the position one
    more move ahead. *)
Lemma landing_as_stated_fails :
  ~ (forall (platforms : list RectGameObject.t) (s : GameState.t)
       (c : MainCharacter.t) (p : RectGameObject.t),
       In p platforms ->
       0 < MainCharacter.velocityY c ->
       landingCondition (MainCharacter.moveX s (MainCharacter.applyGravity c))
         (getDimension p) ->
       let c' := fst (MainCharacter.update platforms s c) in
       MainCharacter.onGround c' = true /\
       MainCharacter.velocityY c' == 0 /\
       MainCharacter.y c' == Dimension.y (getDimension p) - MainCharacter.height c).
Proof.
  intros claim.
  destruct (claim [nearPlatform] viewport fallingCharacter nearPlatform)
    as [grounded _].
  - left. reflexivity.
  - reflexivity.
  - unfold landingCondition. vm_compute. repeat split; intros; discriminate.
  - vm_compute in grounded. discriminate.
Qed.

(** C1 (amended): when the test of the code holds for a platform at the
    start of the loop (bottom edge after the move at or above the top edge
    of the platform, at or below it with [velocityY] added once more,
    horizontal extents overlapping), [update] ends with [onGround] set,
    [velocityY] zero and [y] at the top edge of the first platform of the
    list for which the test holds, less the character's height. *)
Theorem update_lands {A : Type} `{RenderObject A}
  (platforms : list A) (s : GameState.t) (c : MainCharacter.t) (p : A) :
  In p platforms ->
  MainCharacter.hits (MainCharacter.moved s c) (getDimension p) = true ->
  let c' := fst (MainCharacter.update platforms s c) in
  MainCharacter.onGround c' = true /\
  MainCharacter.velocityY c' = 0 /\
  exists q,
    find (fun p => MainCharacter.hits (MainCharacter.moved s c) (getDimension p))
      platforms = Some q /\
    MainCharacter.y c' == Dimension.y (getDimension q) - MainCharacter.height c.
Proof.
  intros Hin Hp c'. subst c'. rewrite update_unfold.
  destruct (find (fun p => MainCharacter.hits (MainCharacter.moved s c)
                             (getDimension p)) platforms) as [q|] eqn:Hq.
  - destruct (StandsOn_first q platforms
                (MainCharacter.set_onGround false (MainCharacter.moved s c)) Hq)
      as (Hg & Hv & Hy & _).
    split; [exact Hg|]. split; [exact Hv|].
    exists q. split; [reflexivity|].
    cbn [fst]. unfold MainCharacter.collide. rewrite Hy.
    change (MainCharacter.height (MainCharacter.set_onGround ?b ?d))
      with (MainCharacter.height d).
    now rewrite moved_height.
  - exfalso. pose proof (find_none _ _ Hq p Hin) as Hn. cbv beta in Hn.
    rewrite Hp in Hn. discriminate.
Qed.

Lemma update_lands_witness :
  let c' :=
    fst (MainCharacter.update [nearPlatform; farPlatform] viewport fallingCharacter) in
  MainCharacter.onGround c' = true /\
  MainCharacter.velocityY c' = 0 /\
  exists q,
    find (fun p => MainCharacter.hits (MainCharacter.moved viewport fallingCharacter)
                     (getDimension p))
      [nearPlatform; farPlatform] = Some q /\
    MainCharacter.y c'
      == Dimension.y (getDimension q) - MainCharacter.height fallingCharacter.
Proof.
  apply (update_lands [nearPlatform; farPlatform] viewport fallingCharacter
           farPlatform).
  - right. left. reflexivity.
  - reflexivity.
Defined.

(** The loop over binary64 numbers: it leaves the character as it was, or
    grounded, at rest, at a height it computed from a platform of the
    list. *)
Lemma loop64_landed (ps : list Binary64.Rect.t) (c : Binary64.Character.t) :
  let c' := fold_left Binary64.Character.collideWith ps c in
  Binary64.Character.height c' = Binary64.Character.height c /\
  (c' = c \/
   Binary64.Character.onGround c' = true /\
   Binary64.Character.velocityY c' = 0%float /\
   exists p, In p ps /\
     Binary64.Character.y c'
     = PrimFloat.sub (Binary64.Dim.y (Binary64.Rect.dimension p))
         (Binary64.Character.height c)).
Proof.
  revert c. induction ps as [|p ps IH]; intros c; simpl.
  - split; [reflexivity|left; reflexivity].
  - specialize (IH (Binary64.Character.collideWith c p)). cbv zeta in IH.
    destruct IH as [Hh IH].
    assert (H1 : Binary64.Character.height (Binary64.Character.collideWith c p)
                 = Binary64.Character.height c)
      by (unfold Binary64.Character.collideWith;
          destruct (Binary64.Character.hits _ _); reflexivity).
    split; [congruence|].
    destruct IH as [E|(Hg & Hv & q & Hq & Hy)].
    + rewrite E. unfold Binary64.Character.collideWith.
      destruct (Binary64.Character.hits c (Binary64.Rect.dimension p)).
      * right. split; [reflexivity|]. split; [reflexivity|].
        exists p. split; [left; reflexivity|reflexivity].
      * left. reflexivity.
    + right. split; [exact Hg|]. split; [exact Hv|].
      exists q. split; [right; exact Hq|]. rewrite Hy, H1. reflexivity.
Qed.

(** C10, as stated, fails on binary64 numbers: [smallCharacter64] lands
    on [thinPlatform64] with [y = 0.1 - 1], and its bottom edge
    [y + height] is then 0.09999999999999998, not the 0.1 of the
    platform's top edge. *)
Lemma bottom_edge_misses_top_edge :
  ~ (forall (platforms : list Binary64.Rect.t) (s : Binary64.State.t)
       (c : Binary64.Character.t),
       let c' := fst (Binary64.Character.update platforms s c) in
       Binary64.Character.onGround c' = true ->
       Binary64.Character.velocityY c' = 0%float /\
       exists p, In p platforms /\
         PrimFloat.eqb
           (PrimFloat.add (Binary64.Character.y c') (Binary64.Character.height c'))
           (Binary64.Dim.y (Binary64.Rect.dimension p)) = true).
Proof.
  intros claim.
  destruct (claim [thinPlatform64] viewport64 smallCharacter64)
    as (_ & p & Hin & E).
  - vm_compute. reflexivity.
  - destruct Hin as [<-|[]]. vm_compute in E. discriminate.
Qed.

(** C10 (amended): when [update] returns with [onGround] set,
    [velocityY] is zero and [y] is the value [dimension.y - height] that
    the code computed for a platform of the list; this holds of the
    exact numbers and of the binary64 ones.  (That [y + height] is the
    platform's [dimension.y] again is true of exact numbers only.) *)
Theorem update_onGround {A : Type} `{RenderObject A}
  (platforms : list A) (s : GameState.t) (c : MainCharacter.t)
  (platforms64 : list Binary64.Rect.t) (s64 : Binary64.State.t)
  (c64 : Binary64.Character.t) :
  let c' := fst (MainCharacter.update platforms s c) in
  let c64' := fst (Binary64.Character.update platforms64 s64 c64) in
  (MainCharacter.onGround c' = true ->
   MainCharacter.velocityY c' = 0 /\
   exists p, In p platforms /\
     MainCharacter.y c' = Dimension.y (getDimension p) - MainCharacter.height c') /\
  (Binary64.Character.onGround c64' = true ->
   Binary64.Character.velocityY c64' = 0%float /\
   exists p, In p platforms64 /\
     Binary64.Character.y c64'
     = PrimFloat.sub (Binary64.Dim.y (Binary64.Rect.dimension p))
         (Binary64.Character.height c64')).
Proof.
  intros c' c64'. split.
  - subst c'. rewrite update_unfold. cbn [fst].
    unfold MainCharacter.collide.
    destruct (loop_Outcome platforms
                (MainCharacter.set_onGround false (MainCharacter.moved s c)))
      as [E _|p Hin Hg Hv Hy _ Hh _].
    + rewrite E. discriminate.
    + intros _. split; [exact Hv|]. exists p. split; [exact Hin|].
      rewrite Hh. exact Hy.
  - subst c64'. unfold Binary64.Character.update. cbn [fst].
    set (c0 := Binary64.Character.set_onGround false _).
    destruct (loop64_landed platforms64 c0) as [Hh [E|(_ & Hv & p & Hin & Hy)]].
    + rewrite E. discriminate.
    + intros _. split; [exact Hv|]. exists p. split; [exact Hin|].
      rewrite Hh. exact Hy.
Qed.

Lemma update_onGround_witness :
  let c' :=
    fst (MainCharacter.update [nearPlatform; farPlatform] viewport fallingCharacter) in
  let c64' :=
    fst (Binary64.Character.update [thinPlatform64] viewport64 smallCharacter64) in
  (MainCharacter.velocityY c' = 0 /\
   exists p, In p [nearPlatform; farPlatform] /\
     MainCharacter.y c' = Dimension.y (getDimension p) - MainCharacter.height c') /\
  (Binary64.Character.velocityY c64' = 0%float /\
   exists p, In p [thinPlatform64] /\
     Binary64.Character.y c64'
     = PrimFloat.sub (Binary64.Dim.y (Binary64.Rect.dimension p))
         (Binary64.Character.height c64')).
Proof.
  destruct (update_onGround [nearPlatform; farPlatform] viewport fallingCharacter
              [thinPlatform64] viewport64 smallCharacter64) as [exact binary].
  split.
  - apply exact. reflexivity.
  - apply binary. vm_compute. reflexivity.
Defined.

(** On exact numbers the bottom edge is the top edge of that platform. *)
Lemma update_onGround_exact {A : Type} `{RenderObject A}
  (platforms : list A) (s : GameState.t) (c : MainCharacter.t) :
  let c' := fst (MainCharacter.update platforms s c) in
  MainCharacter.onGround c' = true ->
  exists p, In p platforms /\
    MainCharacter.y c' + MainCharacter.height c' == Dimension.y (getDimension p).
Proof.
  intros c'. subst c'. rewrite update_unfold. cbn [fst].
  unfold MainCharacter.collide.
  destruct (loop_Outcome platforms
              (MainCharacter.set_onGround false (MainCharacter.moved s c)))
    as [E _|p Hin _ _ Hy _ Hh _].
  - rewrite E. discriminate.
  - intros _. exists p. split; [exact Hin|]. rewrite Hh, Hy. ring.
Qed.

(** ** The loss check *)

(** C5: [update] writes ['LOOSE'] to [status] exactly when the [y] the
    character has on entry (the one the previous frame left) is at least
    [cameraOffset + height] of the state; otherwise the state is
    returned as it was.  The position updates of the frame play no part:
    the test reads the [y] of entry. *)
Theorem update_status {A : Type} `{RenderObject A}
  (platforms : list A) (s : GameState.t) (c : MainCharacter.t) :
  let s' := snd (MainCharacter.update platforms s c) in
  (GameState.cameraOffset s + GameState.height s <= MainCharacter.y c ->
   s' = GameState.set_status GameState.LOOSE s) /\
  (MainCharacter.y c < GameState.cameraOffset s + GameState.height s ->
   s' = s) /\
  (GameState.status s = GameState.GAME ->
   (GameState.status s' = GameState.LOOSE <->
    GameState.cameraOffset s + GameState.height s <= MainCharacter.y c)).
Proof.
  intros s'. subst s'. rewrite update_unfold. cbn [snd].
  unfold MainCharacter.checkLoose. rewrite applyGravity_y.
  destruct (MainCharacter.y c >=? GameState.cameraOffset s + GameState.height s)
    eqn:E.
  - apply geb_ge in E. split; [|split].
    + reflexivity.
    + intros Above. exfalso. apply (Qlt_not_le _ _ Above), E.
    + intros _. split; [intros _; exact E|reflexivity].
  - apply leb_gt in E. split; [|split].
    + intros Below. exfalso. apply (Qlt_not_le _ _ E), Below.
    + reflexivity.
    + intros G. split.
      * rewrite G. discriminate.
      * intros Below. exfalso. apply (Qlt_not_le _ _ E), Below.
Qed.

Lemma update_status_witness :
  snd (MainCharacter.update [nearPlatform] viewport fallenCharacter)
    = GameState.set_status GameState.LOOSE viewport /\
  snd (MainCharacter.update [nearPlatform] viewport risingCharacter) = viewport.
Proof.
  split.
  - apply (update_status [nearPlatform] viewport fallenCharacter).
    vm_compute. discriminate.
  - apply (update_status [nearPlatform] viewport risingCharacter).
    reflexivity.
Defined.

(** ** The horizontal wrap *)

(** C6: with [x1 = x + velocityX], the frame ends with [x] at the
    viewport's width when [x1 < 0], at 0 when [x1] is strictly greater
    than the width, and at [x1] otherwise (so also when [x1] is the width
    itself).  Nothing wraps [y]: it ends at [y] plus the velocity of the
    frame, or where a landing put it. *)
Theorem update_wraps {A : Type} `{RenderObject A}
  (platforms : list A) (s : GameState.t) (c : MainCharacter.t) :
  0 <= GameState.width s ->
  let c' := fst (MainCharacter.update platforms s c) in
  let x1 := MainCharacter.x c + MainCharacter.velocityX c in
  (x1 < 0 -> MainCharacter.x c' = GameState.width s) /\
  (GameState.width s < x1 -> MainCharacter.x c' = 0) /\
  (0 <= x1 <= GameState.width s -> MainCharacter.x c' = x1) /\
  (MainCharacter.y c'
     = MainCharacter.y c + MainCharacter.velocityY (MainCharacter.applyGravity c) \/
   exists p, In p platforms /\
     MainCharacter.y c' = Dimension.y (getDimension p) - MainCharacter.height c).
Proof.
  intros Hw c' x1. subst c'. rewrite update_unfold. cbn [fst].
  unfold MainCharacter.collide.
  rewrite loop_x.
  change (MainCharacter.x (MainCharacter.set_onGround ?b ?d))
    with (MainCharacter.x d).
  rewrite moved_x.
  assert (Hx : MainCharacter.x (MainCharacter.moveX s (MainCharacter.applyGravity c))
               = if x1 <? 0 then GameState.width s
                 else if x1 >? GameState.width s then 0 else x1).
  { unfold MainCharacter.moveX.
    change (MainCharacter.x (MainCharacter.set_x ?v ?d)) with v.
    rewrite applyGravity_x, applyGravity_velocityX. fold x1.
    destruct (x1 <? 0); [reflexivity|].
    destruct (x1 >? GameState.width s); reflexivity. }
  rewrite Hx. clear Hx.
  split; [|split; [|split]].
  - intros Hneg. apply ltb_lt in Hneg. now rewrite Hneg.
  - intros Hbig.
    assert (Hpos : (x1 <? 0) = false) by (apply ltb_ge; lra).
    apply gtb_gt in Hbig. now rewrite Hpos, Hbig.
  - intros [Hlo Hhi].
    apply ltb_ge in Hlo. rewrite Hlo.
    assert (Hin : (x1 >? GameState.width s) = false) by (apply ltb_ge; exact Hhi).
    now rewrite Hin.
  - destruct (loop_Outcome platforms
                (MainCharacter.set_onGround false (MainCharacter.moved s c)))
      as [E _|p Hin _ _ Hy _ _ _].
    + left. rewrite E.
      change (MainCharacter.y (MainCharacter.set_onGround ?b ?d))
        with (MainCharacter.y d).
      apply moved_y.
    + right. exists p. split; [exact Hin|]. rewrite Hy.
      change (MainCharacter.height (MainCharacter.set_onGround ?b ?d))
        with (MainCharacter.height d).
      now rewrite moved_height.
Qed.

Lemma update_wraps_witness :
  MainCharacter.x (fst (MainCharacter.update [nearPlatform] viewport risingCharacter))
    = 0.
Proof.
  apply (update_wraps [nearPlatform] viewport risingCharacter).
  - vm_compute. discriminate.
  - reflexivity.
Defined.

(** ** Gravity *)

(** C8: a character airborne on entry has [gravity] added to [velocityY]
    first, so that a frame without landing ends with that velocity and
    with [y] moved by it; a character grounded on entry keeps its
    [velocityY] through the gravity statement, and a frame without landing
    moves [y] by the velocity it had. *)
Theorem update_gravity {A : Type} `{RenderObject A}
  (platforms : list A) (s : GameState.t) (c : MainCharacter.t) :
  let c' := fst (MainCharacter.update platforms s c) in
  (MainCharacter.onGround c = false ->
   MainCharacter.velocityY (MainCharacter.applyGravity c)
     = MainCharacter.velocityY c + MainCharacter.gravity c /\
   (MainCharacter.onGround c' = false ->
    MainCharacter.velocityY c' = MainCharacter.velocityY c + MainCharacter.gravity c /\
    MainCharacter.y c'
      = MainCharacter.y c + (MainCharacter.velocityY c + MainCharacter.gravity c))) /\
  (MainCharacter.onGround c = true ->
   MainCharacter.applyGravity c = c /\
   (MainCharacter.onGround c' = false ->
    MainCharacter.velocityY c' = MainCharacter.velocityY c /\
    MainCharacter.y c' = MainCharacter.y c + MainCharacter.velocityY c)).
Proof.
  intros c'.
  assert (Hair : MainCharacter.onGround c' = false ->
                 MainCharacter.velocityY c'
                   = MainCharacter.velocityY (MainCharacter.applyGravity c) /\
                 MainCharacter.y c'
                   = MainCharacter.y c
                     + MainCharacter.velocityY (MainCharacter.applyGravity c)).
  { subst c'. rewrite update_unfold. cbn [fst]. unfold MainCharacter.collide.
    destruct (loop_Outcome platforms
                (MainCharacter.set_onGround false (MainCharacter.moved s c)))
      as [E _|p _ Hg _ _ _ _ _].
    - intros _. rewrite E.
      change (MainCharacter.velocityY (MainCharacter.set_onGround ?b ?d))
        with (MainCharacter.velocityY d).
      change (MainCharacter.y (MainCharacter.set_onGround ?b ?d))
        with (MainCharacter.y d).
      now rewrite moved_velocityY, moved_y.
    - rewrite Hg. discriminate. }
  split; intros G.
  - assert (V : MainCharacter.velocityY (MainCharacter.applyGravity c)
                = MainCharacter.velocityY c + MainCharacter.gravity c)
      by (unfold MainCharacter.applyGravity; rewrite G; reflexivity).
    split; [exact V|]. intros G'. rewrite <- V. apply Hair, G'.
  - assert (V : MainCharacter.applyGravity c = c)
      by (unfold MainCharacter.applyGravity; rewrite G; reflexivity).
    split; [exact V|]. intros G'. rewrite V in Hair. apply Hair, G'.
Qed.

Lemma update_gravity_witness :
  MainCharacter.velocityY (MainCharacter.applyGravity risingCharacter)
    = MainCharacter.velocityY risingCharacter + MainCharacter.gravity risingCharacter /\
  MainCharacter.applyGravity (MainCharacter.set_onGround true risingCharacter)
    = MainCharacter.set_onGround true risingCharacter.
Proof.
  split.
  - apply (update_gravity [nearPlatform] viewport risingCharacter). reflexivity.
  - apply (update_gravity [nearPlatform] viewport
             (MainCharacter.set_onGround true risingCharacter)).
    reflexivity.
Defined.

(** ** The movement commands *)

(** C9: after any positive number of calls of [stopMoving] the horizontal
    velocity is 0 and a further call changes nothing; [jump] on a character
    that is not on the ground returns it unchanged; [jump] on a grounded
    character sets [velocityY] to [jumpStrength], clears [onGround] and
    leaves the other fields. *)
Theorem commands (c : MainCharacter.t) (n : nat) :
  MainCharacter.velocityX (Nat.iter (S n) MainCharacter.stopMoving c) = 0 /\
  Nat.iter (S n) MainCharacter.stopMoving c = MainCharacter.stopMoving c /\
  (MainCharacter.onGround c = false -> MainCharacter.jump c = c) /\
  (MainCharacter.onGround c = true ->
   MainCharacter.jump c
     = MainCharacter.set_onGround false
         (MainCharacter.set_velocityY (MainCharacter.jumpStrength c) c) /\
   MainCharacter.velocityY (MainCharacter.jump c) = MainCharacter.jumpStrength c /\
   MainCharacter.onGround (MainCharacter.jump c) = false /\
   MainCharacter.super (MainCharacter.jump c) = MainCharacter.super c /\
   MainCharacter.velocityX (MainCharacter.jump c) = MainCharacter.velocityX c).
Proof.
  assert (I : Nat.iter (S n) MainCharacter.stopMoving c = MainCharacter.stopMoving c).
  { induction n as [|n IH]; [reflexivity|].
    change (MainCharacter.stopMoving (Nat.iter (S n) MainCharacter.stopMoving c)
            = MainCharacter.stopMoving c).
    rewrite IH. reflexivity. }
  split; [rewrite I; reflexivity|]. split; [exact I|].
  unfold MainCharacter.jump. split; intros G; rewrite G.
  - reflexivity.
  - repeat split.
Qed.

Lemma commands_witness :
  MainCharacter.jump risingCharacter = risingCharacter /\
  MainCharacter.velocityY
    (MainCharacter.jump (MainCharacter.set_onGround true risingCharacter))
    = MainCharacter.jumpStrength risingCharacter.
Proof.
  split.
  - apply (commands risingCharacter 0). reflexivity.
  - apply (commands (MainCharacter.set_onGround true risingCharacter) 0).
    reflexivity.
Defined.

(** ** Level.update: the latch and the scroll step *)

Lemma scroll_startScrolling (player : GameObject.t) (s : GameState.t) (l : Level.t) :
  Level.startScrolling (fst (Level.scroll player s l))
    = Level.startScrolling l
      || (GameObject.y player <=? GameState.height s * 0.65).
Proof.
  unfold Level.scroll.
  destruct (Level.startScrolling l || _) eqn:E; cbn [fst].
  - reflexivity.
  - apply orb_false_iff in E as [E _]. exact E.
Qed.

Lemma scroll_cameraOffset (player : GameObject.t) (s : GameState.t) (l : Level.t) :
  GameState.cameraOffset (snd (Level.scroll player s l))
    = if Level.startScrolling (fst (Level.scroll player s l))
      then GameState.cameraOffset s + 2
      else GameState.cameraOffset s.
Proof.
  rewrite scroll_startScrolling. unfold Level.scroll.
  destruct (Level.startScrolling l || _); reflexivity.
Qed.

Lemma scroll_platforms (player : GameObject.t) (s : GameState.t) (l : Level.t) :
  Level.platforms (fst (Level.scroll player s l)) = Level.platforms l.
Proof. unfold Level.scroll. destruct (_ || _); reflexivity. Qed.

(** The callback's writes to [spawn] add up to: some platform was not
    kept. *)
Lemma filterPlatforms_filter (s : GameState.t) (ps : list RectGameObject.t)
  (spawn : bool) :
  Level.filterPlatforms s ps spawn
    = (filter (Level.drop s) ps,
       spawn || existsb (fun p => negb (Level.drop s p)) ps).
Proof.
  revert spawn. induction ps as [|p ps IH]; intros spawn; simpl.
  - now rewrite orb_false_r.
  - rewrite IH. destruct (Level.drop s p); simpl.
    + reflexivity.
    + now rewrite orb_true_r.
Qed.

Lemma update_startScrolling (rnd : number) (player : GameObject.t)
  (s : GameState.t) (l : Level.t) :
  Level.startScrolling (fst (Level.update rnd player s l))
    = Level.startScrolling (fst (Level.scroll player s l)).
Proof.
  unfold Level.update.
  destruct (Level.scroll player s l) as [l1 s1]. cbn [fst].
  rewrite filterPlatforms_filter.
  destruct (false || _); reflexivity.
Qed.

Lemma update_state (rnd : number) (player : GameObject.t)
  (s : GameState.t) (l : Level.t) :
  snd (Level.update rnd player s l) = snd (Level.scroll player s l).
Proof.
  unfold Level.update.
  destruct (Level.scroll player s l) as [l1 s1]. cbn [snd].
  rewrite filterPlatforms_filter. reflexivity.
Qed.

Lemma drop_scrolledPast (s : GameState.t) (p : RectGameObject.t) :
  Level.drop s p = negb (scrolledPast s p).
Proof. apply ltb_negb_leb. Qed.

Lemma existsb_negb_drop (s : GameState.t) (ps : list RectGameObject.t) :
  existsb (fun p => negb (Level.drop s p)) ps = existsb (scrolledPast s) ps.
Proof.
  induction ps as [|p ps IH]; simpl; [reflexivity|].
  now rewrite IH, drop_scrolledPast, negb_involutive.
Qed.

Lemma existsb_filter {B : Type} (f : B -> bool) (xs : list B) :
  existsb f xs = match filter f xs with [] => false | _ :: _ => true end.
Proof.
  induction xs as [|x xs IH]; simpl; [reflexivity|].
  destruct (f x); simpl; [reflexivity|exact IH].
Qed.

(** C3: [Level.update] keeps, in order, the platforms that have not
    scrolled past the bottom of the viewport (with the camera offset this
    frame's scroll step produced), removes all the others, and appends one
    spawned platform if it removed any and none if it removed none. *)
Theorem update_recycles (rnd : number) (player : GameObject.t)
  (s : GameState.t) (l : Level.t) :
  let l' := fst (Level.update rnd player s l) in
  let s' := snd (Level.update rnd player s l) in
  let removed := filter (scrolledPast s') (Level.platforms l) in
  let kept := filter (fun p => negb (scrolledPast s' p)) (Level.platforms l) in
  Level.platforms l'
    = kept ++ match removed with
              | [] => []
              | _ :: _ => [Level.spawned rnd s' None]
              end /\
  (forall p, In p (Level.platforms l) ->
     (In p kept <-> scrolledPast s' p = false) /\
     (In p removed <-> scrolledPast s' p = true)) /\
  List.length (Level.platforms l')
    = (List.length kept + match removed with [] => 0 | _ :: _ => 1 end)%nat.
Proof.
  intros l' s' removed kept.
  assert (E : Level.platforms l'
              = kept ++ match removed with
                        | [] => []
                        | _ :: _ => [Level.spawned rnd s' None]
                        end).
  { subst l' s' removed kept. rewrite update_state. unfold Level.update.
    destruct (Level.scroll player s l) as [l1 s1] eqn:Es.
    assert (P : Level.platforms l1 = Level.platforms l)
      by (rewrite <- (scroll_platforms player s l), Es; reflexivity).
    cbn [snd]. rewrite filterPlatforms_filter, P. cbn [orb].
    rewrite (filter_ext (Level.drop s1) (fun p => negb (scrolledPast s1 p)))
      by apply drop_scrolledPast.
    rewrite existsb_negb_drop, existsb_filter.
    unfold Level.spawnPlatform, Level.set_platforms.
    destruct (filter (scrolledPast s1) (Level.platforms l)); cbn.
    - now rewrite app_nil_r.
    - reflexivity. }
  split; [exact E|]. split.
  - intros p Hin. subst kept removed. rewrite !filter_In.
    split; split.
    + intros [_ H]. now apply negb_true_iff.
    + intros H. split; [exact Hin|]. now apply negb_true_iff.
    + intros [_ H]. exact H.
    + intros H. split; [exact Hin|exact H].
  - rewrite E, length_app. destruct removed; reflexivity.
Qed.

(** The example of the specification: three platforms below the viewport
    are replaced by one. *)
Example recycle_three_for_one :
  let below := RectGameObject.new 10 700 80 10 "brown" in
  let l := Level.mk [nearPlatform; below; below; farPlatform; below] true in
  Level.platforms
    (fst (Level.update 0.5 (MainCharacter.super risingCharacter) viewport l))
  = [nearPlatform; farPlatform;
     Level.spawned 0.5 (GameState.set_cameraOffset 2 viewport) None].
Proof. vm_compute. reflexivity. Qed.

(** ** One frame of the game loop *)

Lemma gameLoop_GAME (handle : MainCharacter.t -> MainCharacter.t) (rnd : number)
  (w : World) :
  GameState.status (state w) = GameState.GAME ->
  let pu := MainCharacter.update (Level.platforms (level w)) (state w)
              (handle (player w)) in
  let lu := Level.update rnd (MainCharacter.super (fst pu)) (snd pu) (level w) in
  gameLoop handle rnd w = (mkWorld (snd lu) (fst lu) (fst pu), true).
Proof.
  intros G pu lu. unfold gameLoop. rewrite G. fold pu.
  destruct pu as [p s1] eqn:Ep. cbn [fst snd] in lu. fold lu.
  destruct lu as [l2 s2]. reflexivity.
Qed.

Lemma gameLoop_LOOSE (handle : MainCharacter.t -> MainCharacter.t) (rnd : number)
  (w : World) :
  GameState.status (state w) = GameState.LOOSE ->
  gameLoop handle rnd w
    = (mkWorld (GameState.set_cameraOffset 0 (state w)) (level w) (player w),
       false).
Proof. intros L. unfold gameLoop. rewrite L. reflexivity. Qed.

Lemma gameLoop_startScrolling (handle : MainCharacter.t -> MainCharacter.t)
  (rnd : number) (w : World) :
  Level.startScrolling (level w) = true ->
  Level.startScrolling (level (fst (gameLoop handle rnd w))) = true.
Proof.
  intros S. destruct (GameState.status (state w)) eqn:E.
  - rewrite (gameLoop_GAME handle rnd w E). cbn [fst level].
    rewrite update_startScrolling, scroll_startScrolling, S. reflexivity.
  - rewrite (gameLoop_LOOSE handle rnd w E). exact S.
Qed.

(** ** The camera offset along a run *)

(** The frame that detects the loss still runs to its end: the character
    moves, the level scrolls and recycles, and the call registers itself
    once more. *)
Example loosing_frame :
  gameLoop (input leftFrame) (random leftFrame) fallenWorld
  = (mkWorld (GameState.mk 102 700 400 GameState.LOOSE 0)
       (Level.mk [RectGameObject.new 160 (-20) 80 10 "brown";
                  RectGameObject.new 160 (-100) 80 10 "brown";
                  Level.spawned 0.5 (GameState.mk 102 700 400 GameState.LOOSE 0)
                    None] true)
       (MainCharacter.mk (GameObject.mk 335 844.7 40 40 "red") (-5) 24.7 0.7 5
          (-15) false),
     true).
Proof. vm_compute. reflexivity. Qed.

(** C2, as stated, fails: from [fallenWorld] the first frame detects the
    loss and scrolls to 102; the next call of [gameLoop], which only draws
    the final screen, sets the camera offset to 0, with no restart. *)
Lemma cameraOffset_reset_without_restart :
  ~ (forall (frames : list Frame) (w : World),
       neverDecreases (offsets frames w)).
Proof.
  intros claim.
  assert (D : 102 <= 0).
  { apply (claim [leftFrame; leftFrame] fallenWorld 1%nat).
    - vm_compute. reflexivity.
    - vm_compute. reflexivity. }
  vm_compute in D. apply D. reflexivity.
Qed.

(** The same happens in the run from [startWorld]: the last two camera
    offsets are 102 and 0. *)
Example offsets_of_lost_run :
  skipn 97 (offsets (climb ++ fall ++ [leftFrame]) startWorld) = [102; 0].
Proof. vm_compute. reflexivity. Qed.

(** What a frame in status ['GAME'] does to the camera offset. *)
Lemma running_cameraOffset (handle : MainCharacter.t -> MainCharacter.t)
  (rnd : number) (w : World) :
  GameState.status (state w) = GameState.GAME ->
  let w' := fst (gameLoop handle rnd w) in
  GameState.cameraOffset (state w')
  = if Level.startScrolling (level w')
    then GameState.cameraOffset (state w) + 2
    else GameState.cameraOffset (state w).
Proof.
  intros E w'. subst w'. rewrite (gameLoop_GAME handle rnd w E).
  cbn [fst level state].
  rewrite update_startScrolling, update_state, scroll_cameraOffset.
  rewrite update_unfold. cbn [snd]. rewrite checkLoose_cameraOffset.
  reflexivity.
Qed.

Lemma neverDecreases_one (a : number) : neverDecreases [a].
Proof. intros i x y' _ Hy. destruct i as [|[|i]]; discriminate. Qed.

Lemma neverDecreases_cons (a b : number) (os : list number) :
  a <= b -> neverDecreases (b :: os) -> neverDecreases (a :: b :: os).
Proof.
  intros Hab Hos [|i] x y' Hx Hy; simpl in Hx, Hy.
  - injection Hx as <-. injection Hy as <-. exact Hab.
  - apply (Hos i x y' Hx Hy).
Qed.

Lemma offsets_head (frames : list Frame) (w : World) :
  exists os, offsets frames w = GameState.cameraOffset (state w) :: os.
Proof. destruct frames; simpl; eexists; reflexivity. Qed.

Lemma run_stays_LOOSE (frames : list Frame) (w : World) :
  GameState.status (state w) = GameState.LOOSE ->
  GameState.status (state (run frames w)) = GameState.LOOSE.
Proof.
  intros L. destruct frames as [|f frames]; simpl; [exact L|].
  rewrite (gameLoop_LOOSE (input f) (random f) w L). exact L.
Qed.

(** While the status of a run is still ['GAME'] at its end, the camera
    offsets along it never decrease. *)
Lemma offsets_while_running (frames : list Frame) (w : World) :
  GameState.status (state (run frames w)) = GameState.GAME ->
  neverDecreases (offsets frames w).
Proof.
  revert w. induction frames as [|f frames IH]; intros w G.
  - apply neverDecreases_one.
  - destruct (GameState.status (state w)) eqn:E.
    + pose proof (running_cameraOffset (input f) (random f) w E) as O.
      simpl in G |- *.
      rewrite (gameLoop_GAME (input f) (random f) w E) in G, O |- *.
      cbv zeta in G, O |- *. cbn [fst] in O.
      set (w1 := mkWorld _ _ _) in *.
      destruct (offsets_head frames w1) as [os Eo].
      specialize (IH w1 G). rewrite Eo in IH |- *.
      apply neverDecreases_cons; [|exact IH].
      rewrite O. destruct (Level.startScrolling (level w1)); lra.
    + rewrite (run_stays_LOOSE (f :: frames) w E) in G. discriminate.
Qed.

(** C2 (amended): a call of [gameLoop] in status ['GAME'] leaves
    [cameraOffset] as it was when the level is not latched at the end of
    the frame and adds exactly 2 when it is, so the offset never decreases
    along a run for as long as the status is ['GAME']; the call in status
    ['LOOSE'] sets it to 0. *)
Theorem gameLoop_cameraOffset (handle : MainCharacter.t -> MainCharacter.t)
  (rnd : number) (frames : list Frame) (w : World) :
  let w' := fst (gameLoop handle rnd w) in
  (GameState.status (state w) = GameState.GAME ->
   (Level.startScrolling (level w') = false ->
    GameState.cameraOffset (state w') = GameState.cameraOffset (state w)) /\
   (Level.startScrolling (level w') = true ->
    GameState.cameraOffset (state w') = GameState.cameraOffset (state w) + 2) /\
   GameState.cameraOffset (state w) <= GameState.cameraOffset (state w')) /\
  (GameState.status (state (run frames w)) = GameState.GAME ->
   neverDecreases (offsets frames w)) /\
  (GameState.status (state w) = GameState.LOOSE ->
   GameState.cameraOffset (state w') = 0).
Proof.
  intros w'. split; [|split].
  - intros E. pose proof (running_cameraOffset handle rnd w E) as O.
    fold w' in O. rewrite O.
    destruct (Level.startScrolling (level w')).
    + split; [discriminate|]. split; [reflexivity|]. lra.
    + split; [reflexivity|]. split; [discriminate|]. lra.
  - apply offsets_while_running.
  - intros E. subst w'. rewrite (gameLoop_LOOSE handle rnd w E). reflexivity.
Qed.

Lemma gameLoop_cameraOffset_witness :
  GameState.cameraOffset
    (state (fst (gameLoop (input upFrame) (random upFrame) startWorld)))
    = GameState.cameraOffset (state startWorld) /\
  neverDecreases (offsets climb startWorld) /\
  GameState.cameraOffset
    (state (fst (gameLoop (input upFrame) (random upFrame)
                   (run [leftFrame] fallenWorld))))
    = 0.
Proof.
  split; [|split].
  - destruct (gameLoop_cameraOffset (input upFrame) (random upFrame) []
                startWorld) as [running _].
    apply running; vm_compute; reflexivity.
  - destruct (gameLoop_cameraOffset (input upFrame) (random upFrame) climb
                startWorld) as (_ & along & _).
    apply along. vm_compute. reflexivity.
  - destruct (gameLoop_cameraOffset (input upFrame) (random upFrame) []
                (run [leftFrame] fallenWorld)) as (_ & _ & ended).
    apply ended. vm_compute. reflexivity.
Defined.

(** ** The latch *)

Lemma run_startScrolling (frames : list Frame) (w : World) :
  Level.startScrolling (level w) = true ->
  Level.startScrolling (level (run frames w)) = true.
Proof.
  revert w. induction frames as [|f frames IH]; intros w S; simpl; [exact S|].
  pose proof (gameLoop_startScrolling (input f) (random f) w S) as S'.
  destruct (gameLoop (input f) (random f) w) as [w1 again]. cbn [fst] in S'.
  destruct again; [apply IH, S'|exact S'].
Qed.

(** C4: a [Level.update] that finds the character's [y] at or above the
    threshold [height * 0.65], or the latch already set, ends with the
    latch set and with [cameraOffset] increased by exactly 2, whatever the
    character's position in the second case; and a latch that is set
    stays set through all the frames that follow. *)
Theorem scroll_latches (rnd : number) (player : GameObject.t) (s : GameState.t)
  (l : Level.t) (frames : list Frame) (w : World) :
  (GameObject.y player <= GameState.height s * 0.65 ->
   Level.startScrolling (fst (Level.update rnd player s l)) = true /\
   GameState.cameraOffset (snd (Level.update rnd player s l))
     = GameState.cameraOffset s + 2) /\
  (Level.startScrolling l = true ->
   Level.startScrolling (fst (Level.update rnd player s l)) = true /\
   GameState.cameraOffset (snd (Level.update rnd player s l))
     = GameState.cameraOffset s + 2) /\
  (Level.startScrolling (level w) = true ->
   Level.startScrolling (level (run frames w)) = true).
Proof.
  assert (L : Level.startScrolling (fst (Level.scroll player s l)) = true ->
              Level.startScrolling (fst (Level.update rnd player s l)) = true /\
              GameState.cameraOffset (snd (Level.update rnd player s l))
                = GameState.cameraOffset s + 2).
  { intros S. rewrite update_startScrolling, update_state, scroll_cameraOffset, S.
    split; reflexivity. }
  split; [|split].
  - intros Hy. apply L. rewrite scroll_startScrolling.
    apply leb_le in Hy. rewrite Hy. apply orb_true_r.
  - intros S. apply L. rewrite scroll_startScrolling, S. reflexivity.
  - apply run_startScrolling.
Qed.

Lemma scroll_latches_witness :
  (Level.startScrolling
     (fst (Level.update 0.5 (GameObject.mk 180 455 40 40 "red") viewport Level.new))
     = true /\
   GameState.cameraOffset
     (snd (Level.update 0.5 (GameObject.mk 180 455 40 40 "red") viewport Level.new))
     = GameState.cameraOffset viewport + 2) /\
  Level.startScrolling (level (run fall (run climb startWorld))) = true.
Proof.
  destruct (scroll_latches 0.5 (GameObject.mk 180 455 40 40 "red") viewport
              Level.new fall (run climb startWorld))
    as (reached & _ & stays).
  split.
  - apply reached. vm_compute. discriminate.
  - apply stays. vm_compute. reflexivity.
Defined.

(** ** The end of the run *)

Lemma run_LOOSE (frames : list Frame) (w : World) :
  GameState.status (state w) = GameState.LOOSE ->
  run frames w = w \/
  run frames w
    = mkWorld (GameState.set_cameraOffset 0 (state w)) (level w) (player w).
Proof.
  intros L. destruct frames as [|f frames]; simpl.
  - left. reflexivity.
  - rewrite (gameLoop_LOOSE (input f) (random f) w L). right. reflexivity.
Qed.

Lemma update_status_after (rnd : number) (player : GameObject.t)
  (s : GameState.t) (l : Level.t) :
  GameState.status (snd (Level.update rnd player s l)) = GameState.status s.
Proof.
  rewrite update_state. unfold Level.scroll. destruct (_ || _); reflexivity.
Qed.

(** C7, as stated, fails: in the call of [gameLoop] in which the loss
    check of [update] writes ['LOOSE'], the character goes on to be moved,
    the level is updated and the call registers itself for another frame.
    From [fallenWorld] the status becomes ['LOOSE'] with the character at
    [y = 820]; the same call leaves it at 844.7, recycles a platform and
    returns [true]. *)
Lemma loop_goes_on_after_loss :
  ~ (forall (handle : MainCharacter.t -> MainCharacter.t) (rnd : number)
       (w : World),
       GameState.status (state w) = GameState.GAME ->
       let c := MainCharacter.applyGravity (handle (player w)) in
       GameState.status (MainCharacter.checkLoose c (state w)) = GameState.LOOSE ->
       snd (gameLoop handle rnd w) = false /\
       MainCharacter.super (player (fst (gameLoop handle rnd w)))
         = MainCharacter.super c /\
       level (fst (gameLoop handle rnd w)) = level w).
Proof.
  intros claim.
  destruct (claim (input leftFrame) (random leftFrame) fallenWorld)
    as (stopped & _ & _).
  - reflexivity.
  - reflexivity.
  - vm_compute in stopped. discriminate.
Qed.

(** C7 (amended): the loop ends one call after the loss.  A call of
    [gameLoop] in status ['GAME'] runs the whole frame and registers
    itself again whether or not its loss check fires: the character is
    what [update] returns, the level and the state what [Level.update]
    returns, and the status is ['LOOSE'] afterwards exactly when the
    character entered the frame at or below [cameraOffset + height].
    A call that finds the status ['LOOSE'] does not register itself and
    returns the character and the level as they were, so that however
    many frames follow, the character's fields and the list of platforms
    stay what they were when that call began, and the status stays
    ['LOOSE']. *)
Theorem loop_ends_one_call_later (handle : MainCharacter.t -> MainCharacter.t)
  (rnd : number) (frames : list Frame) (w : World) :
  (GameState.status (state w) = GameState.GAME ->
   let pu := MainCharacter.update (Level.platforms (level w)) (state w)
               (handle (player w)) in
   let lu := Level.update rnd (MainCharacter.super (fst pu)) (snd pu) (level w) in
   gameLoop handle rnd w = (mkWorld (snd lu) (fst lu) (fst pu), true) /\
   (GameState.status (snd lu) = GameState.LOOSE <->
    GameState.cameraOffset (state w) + GameState.height (state w)
      <= MainCharacter.y (handle (player w)))) /\
  (GameState.status (state w) = GameState.LOOSE ->
   snd (gameLoop handle rnd w) = false /\
   player (fst (gameLoop handle rnd w)) = player w /\
   level (fst (gameLoop handle rnd w)) = level w /\
   player (run frames w) = player w /\
   level (run frames w) = level w /\
   GameState.status (state (run frames w)) = GameState.LOOSE).
Proof.
  split.
  - intros G pu lu. split; [apply (gameLoop_GAME handle rnd w G)|].
    subst lu. rewrite update_status_after. subst pu.
    rewrite update_unfold. cbn [snd].
    unfold MainCharacter.checkLoose. rewrite applyGravity_y.
    destruct (MainCharacter.y (handle (player w))
              >=? GameState.cameraOffset (state w) + GameState.height (state w))
      eqn:E.
    + apply geb_ge in E. split; [intros _; exact E|reflexivity].
    + apply leb_gt in E. split.
      * rewrite G. discriminate.
      * intros Below. exfalso. apply (Qlt_not_le _ _ E), Below.
  - intros L. rewrite (gameLoop_LOOSE handle rnd w L).
    cbn [fst snd player level].
    repeat (split; [reflexivity|]).
    destruct (run_LOOSE frames w L) as [-> | ->].
    + repeat split. exact L.
    + repeat split. exact L.
Qed.

Lemma loop_ends_one_call_later_witness :
  snd (gameLoop (input leftFrame) (random leftFrame) fallenWorld) = true /\
  (let w := run [leftFrame] fallenWorld in
   GameState.status (state w) = GameState.LOOSE /\
   snd (gameLoop (input upFrame) (random upFrame) w) = false /\
   player (run climb w) = player w /\
   level (run climb w) = level w).
Proof.
  split.
  - destruct (loop_ends_one_call_later (input leftFrame) (random leftFrame) []
                fallenWorld) as [running _].
    destruct (running eq_refl) as [frame _]. rewrite frame. reflexivity.
  - intros w.
    assert (L : GameState.status (state w) = GameState.LOOSE)
      by (vm_compute; reflexivity).
    split; [exact L|].
    destruct (loop_ends_one_call_later (input upFrame) (random upFrame) climb w)
      as [_ ended].
    destruct (ended L) as (stopped & _ & _ & samePlayer & sameLevel & _).
    split; [exact stopped|]. split; [exact samePlayer|exact sameLevel].
Defined.

(** * Further properties of the code *)

(** ** MainCharacter.update *)

Lemma moveX_x (s : GameState.t) (c : MainCharacter.t) :
  MainCharacter.x (MainCharacter.moveX s c)
  = let x1 := MainCharacter.x c + MainCharacter.velocityX c in
    if x1 <? 0 then GameState.width s
    else if x1 >? GameState.width s then 0 else x1.
Proof.
  unfold MainCharacter.moveX.
  change (MainCharacter.x (MainCharacter.set_x ?v ?d)) with v. cbv zeta.
  destruct (_ <? 0); [reflexivity|].
  destruct (_ >? GameState.width s); reflexivity.
Qed.

Lemma loop_no_hit {A : Type} `{RenderObject A} (ps : list A)
  (c0 : MainCharacter.t) :
  existsb (fun p => MainCharacter.hits c0 (getDimension p)) ps = false ->
  fold_left MainCharacter.collideWith ps c0 = c0.
Proof.
  induction ps as [|p ps IH]; simpl; [reflexivity|].
  intros E. apply orb_false_iff in E as [Hp Hps].
  unfold MainCharacter.collideWith at 2. rewrite Hp. apply IH, Hps.
Qed.

Lemma existsb_find {B : Type} (f : B -> bool) (xs : list B) :
  existsb f xs = true -> exists x, find f xs = Some x.
Proof.
  induction xs as [|x xs IH]; simpl; [discriminate|].
  destruct (f x); [intros _; eexists; reflexivity|exact IH].
Qed.

(** The fields [update] reads without ever writing them. *)
Lemma loop_untouched {A : Type} `{RenderObject A} (ps : list A)
  (c : MainCharacter.t) :
  let c' := fold_left MainCharacter.collideWith ps c in
  MainCharacter.width c' = MainCharacter.width c /\
  MainCharacter.height c' = MainCharacter.height c /\
  GameObject.color (MainCharacter.super c') = GameObject.color (MainCharacter.super c) /\
  MainCharacter.velocityX c' = MainCharacter.velocityX c /\
  MainCharacter.gravity c' = MainCharacter.gravity c /\
  MainCharacter.speed c' = MainCharacter.speed c /\
  MainCharacter.jumpStrength c' = MainCharacter.jumpStrength c.
Proof.
  revert c. induction ps as [|p ps IH]; intros c; simpl; [repeat split|].
  specialize (IH (MainCharacter.collideWith c p)). cbv zeta in IH.
  destruct IH as (E1 & E2 & E3 & E4 & E5 & E6 & E7).
  rewrite E1, E2, E3, E4, E5, E6, E7.
  unfold MainCharacter.collideWith.
  destruct (MainCharacter.hits c (getDimension p)); repeat split.
Qed.

(** X1: [update] writes [x], [y], [velocityY] and [onGround] only: the
    size and colour of the character, its horizontal velocity and its
    three constants come out as they went in. *)
Theorem update_untouched {A : Type} `{RenderObject A}
  (platforms : list A) (s : GameState.t) (c : MainCharacter.t) :
  let c' := fst (MainCharacter.update platforms s c) in
  MainCharacter.width c' = MainCharacter.width c /\
  MainCharacter.height c' = MainCharacter.height c /\
  GameObject.color (MainCharacter.super c') = GameObject.color (MainCharacter.super c) /\
  MainCharacter.velocityX c' = MainCharacter.velocityX c /\
  MainCharacter.gravity c' = MainCharacter.gravity c /\
  MainCharacter.speed c' = MainCharacter.speed c /\
  MainCharacter.jumpStrength c' = MainCharacter.jumpStrength c.
Proof.
  intros c'. subst c'. rewrite update_unfold. cbn [fst].
  unfold MainCharacter.collide.
  destruct (loop_untouched platforms
              (MainCharacter.set_onGround false (MainCharacter.moved s c)))
    as (E1 & E2 & E3 & E4 & E5 & E6 & E7).
  rewrite E1, E2, E3, E4, E5, E6, E7.
  unfold MainCharacter.moved, MainCharacter.moveY, MainCharacter.moveX,
    MainCharacter.applyGravity.
  destruct (MainCharacter.onGround c); cbn [negb];
    (destruct (_ <? 0); [|destruct (_ >? GameState.width s)]); repeat split.
Qed.

(** X2: in a viewport of non-negative width the character leaves
    [update] with [0 <= x <= width], wherever it was and however fast it
    moved. *)
Theorem update_x_in_viewport {A : Type} `{RenderObject A}
  (platforms : list A) (s : GameState.t) (c : MainCharacter.t) :
  0 <= GameState.width s ->
  let c' := fst (MainCharacter.update platforms s c) in
  0 <= MainCharacter.x c' <= GameState.width s.
Proof.
  intros Hw c'. subst c'. rewrite update_unfold. cbn [fst].
  unfold MainCharacter.collide. rewrite loop_x.
  change (MainCharacter.x (MainCharacter.set_onGround ?b ?d))
    with (MainCharacter.x d).
  rewrite moved_x, moveX_x. cbv zeta.
  destruct (_ <? 0) eqn:Elo; [lra|].
  destruct (_ >? GameState.width s) eqn:Ehi; [lra|].
  apply ltb_ge in Elo. apply ltb_ge in Ehi. lra.
Qed.

Lemma update_x_in_viewport_witness :
  0 <= MainCharacter.x
         (fst (MainCharacter.update [nearPlatform] viewport risingCharacter))
    <= GameState.width viewport.
Proof.
  apply (update_x_in_viewport [nearPlatform] viewport risingCharacter).
  vm_compute. discriminate.
Defined.

(** X3: [update] ends with [onGround] set exactly when some platform of
    the list passes the test against the character as it is when the loop
    starts; platforms that pass it only after a landing do not count, since
    a landing needs an earlier one. *)
Theorem update_onGround_iff {A : Type} `{RenderObject A}
  (platforms : list A) (s : GameState.t) (c : MainCharacter.t) :
  MainCharacter.onGround (fst (MainCharacter.update platforms s c))
  = existsb (fun p => MainCharacter.hits (MainCharacter.moved s c) (getDimension p))
      platforms.
Proof.
  rewrite update_unfold. cbn [fst]. unfold MainCharacter.collide.
  destruct (existsb _ platforms) eqn:E.
  - destruct (existsb_find _ _ E) as [q Hq].
    apply (StandsOn_first q platforms
             (MainCharacter.set_onGround false (MainCharacter.moved s c)) Hq).
  - rewrite (loop_no_hit platforms
               (MainCharacter.set_onGround false (MainCharacter.moved s c)) E).
    reflexivity.
Qed.







(** ** Level.update and spawnPlatform *)

Lemma scroll_height (player : GameObject.t) (s : GameState.t) (l : Level.t) :
  GameState.height (snd (Level.scroll player s l)) = GameState.height s.
Proof. unfold Level.scroll. destruct (_ || _); reflexivity. Qed.

Lemma scroll_width (player : GameObject.t) (s : GameState.t) (l : Level.t) :
  GameState.width (snd (Level.scroll player s l)) = GameState.width s.
Proof. unfold Level.scroll. destruct (_ || _); reflexivity. Qed.

Lemma update_platforms (rnd : number) (player : GameObject.t)
  (s : GameState.t) (l : Level.t) :
  let s' := snd (Level.scroll player s l) in
  Level.platforms (fst (Level.update rnd player s l))
  = filter (Level.drop s') (Level.platforms l)
    ++ (if existsb (fun p => negb (Level.drop s' p)) (Level.platforms l)
        then [Level.spawned rnd s' None] else []).
Proof.
  unfold Level.update.
  destruct (Level.scroll player s l) as [l1 s1] eqn:Es.
  assert (P : Level.platforms l1 = Level.platforms l)
    by (rewrite <- (scroll_platforms player s l), Es; reflexivity).
  cbn [snd]. rewrite filterPlatforms_filter, P. cbn [orb].
  destruct (existsb _ (Level.platforms l)); cbn.
  - reflexivity.
  - now rewrite app_nil_r.
Qed.

Lemma filter_count {B : Type} (f : B -> bool) (xs : list B) :
  (List.length (filter f xs)
   + (if existsb (fun x => negb (f x)) xs then 1 else 0)
   <= List.length xs)%nat /\
  (existsb (fun x => negb (f x)) xs = false -> filter f xs = xs).
Proof.
  induction xs as [|x xs [IHn IHe]]; simpl; [split; [lia|reflexivity]|].
  destruct (f x); simpl.
  - split.
    + destruct (existsb _ xs); simpl in *; lia.
    + intros E. now rewrite IHe.
  - split; [|discriminate].
    destruct (existsb _ xs); simpl in *; lia.
Qed.

(** X6: in a viewport of positive height every platform a level holds
    after [Level.update] is above the bottom of the viewport, the spawned
    one included: what [render] draws next has its top edge on the
    canvas or above it. *)
Theorem update_aboveBottom (rnd : number) (player : GameObject.t)
  (s : GameState.t) (l : Level.t) :
  0 < GameState.height s ->
  aboveBottom (snd (Level.update rnd player s l))
    (fst (Level.update rnd player s l)).
Proof.
  intros Hh. unfold aboveBottom.
  rewrite update_platforms, update_state. cbv zeta.
  set (s1 := snd (Level.scroll player s l)).
  apply Forall_app. split.
  - apply Forall_forall. intros p Hp. apply filter_In in Hp as [_ Hp].
    apply ltb_lt, Hp.
  - destruct (existsb _ (Level.platforms l)); constructor; [|constructor].
    unfold s1. rewrite scroll_height. cbn. lra.
Qed.

Lemma update_aboveBottom_witness :
  aboveBottom
    (snd (Level.update 0.5 (MainCharacter.super risingCharacter)
            (state fallenWorld) (level fallenWorld)))
    (fst (Level.update 0.5 (MainCharacter.super risingCharacter)
            (state fallenWorld) (level fallenWorld))).
Proof.
  apply (update_aboveBottom 0.5 (MainCharacter.super risingCharacter)
           (state fallenWorld) (level fallenWorld)).
  reflexivity.
Defined.

(** X7: [Level.update] never makes a level longer, never empties a level
    that had a platform, and spawns nothing into an empty level, so that
    a level that was [reset] stays empty. *)
Theorem update_count (rnd : number) (player : GameObject.t)
  (s : GameState.t) (l : Level.t) :
  let l' := fst (Level.update rnd player s l) in
  (List.length (Level.platforms l') <= List.length (Level.platforms l))%nat /\
  (Level.platforms l' = [] <-> Level.platforms l = []) /\
  Level.platforms (fst (Level.update rnd player s (Level.reset l))) = [].
Proof.
  intros l'. subst l'. rewrite !update_platforms. cbv zeta.
  set (s1 := snd (Level.scroll player s l)).
  destruct (filter_count (Level.drop s1) (Level.platforms l)) as [Hn He].
  split; [|split].
  - rewrite length_app.
    destruct (existsb _ (Level.platforms l)); simpl in *; lia.
  - split.
    + destruct (existsb _ (Level.platforms l)) eqn:E.
      * intros C. apply (f_equal (@List.length _)) in C.
        rewrite length_app in C. simpl in C. lia.
      * rewrite (He eq_refl), app_nil_r. trivial.
    + intros ->. reflexivity.
  - reflexivity.
Qed.

(** X8: for a random number in [[0, 1)] and a viewport at least 80 wide,
    the platform [spawnPlatform] builds is 80 by 10 and lies within the
    width of the viewport; its top edge is the [height] given, or, with
    none given, the top of the visible part: screen position 0. *)
Theorem spawned_in_view (rnd : number) (s : GameState.t) (h : option number) :
  0 <= rnd < 1 ->
  80 <= GameState.width s ->
  let d := getDimension (Level.spawned rnd s h) in
  0 <= Dimension.x d /\
  Dimension.x d + Dimension.width d <= GameState.width s /\
  Dimension.width d = 80 /\
  Dimension.height d = 10 /\
  match h with
  | Some top => Dimension.y d = top
  | None => Dimension.y d + GameState.cameraOffset s == 0
  end.
Proof.
  intros [Hlo Hhi] Hw d. subst d. cbn. unfold getRandomFloat.
  set (room := GameState.width s - 80 - 0).
  assert (Hroom : 0 <= room) by (unfold room; lra).
  assert (H0 : 0 <= rnd * room) by (apply Qmult_le_0_compat; assumption).
  assert (H1 : rnd * room <= 1 * room)
    by (apply Qmult_le_compat_r; [lra|exact Hroom]).
  split; [lra|]. split; [unfold room in *; lra|].
  split; [reflexivity|]. split; [reflexivity|].
  destruct h; [reflexivity|lra].
Qed.

Lemma spawned_in_view_witness :
  let d := getDimension (Level.spawned 0.5 viewport None) in
  0 <= Dimension.x d /\
  Dimension.x d + Dimension.width d <= GameState.width viewport /\
  Dimension.width d = 80 /\
  Dimension.height d = 10 /\
  Dimension.y d + GameState.cameraOffset viewport == 0.
Proof.
  apply (spawned_in_view 0.5 viewport None).
  - split; [vm_compute; discriminate|reflexivity].
  - vm_compute. discriminate.
Defined.

(** ** The keys and the input handler *)

Lemma held_keydown (key key' : string) (keys : Keys) :
  held (keydown key keys) key' = if String.eqb key key' then true else held keys key'.
Proof. unfold held, keydown. simpl. destruct (String.eqb key key'); reflexivity. Qed.

Lemma held_keyup (key key' : string) (keys : Keys) :
  held (keyup key keys) key' = if String.eqb key key' then false else held keys key'.
Proof. unfold held, keyup. simpl. destruct (String.eqb key key'); reflexivity. Qed.

(** X12: the input handler is idempotent: called twice in a row with the
    same keys held (as [startGame] and the first [gameLoop] do) it leaves
    the character as one call does; in particular a held jump key does
    not jump twice. *)
Theorem handlePlayerInput_idempotent (keys : Keys) (p : MainCharacter.t) :
  handlePlayerInput keys (handlePlayerInput keys p) = handlePlayerInput keys p.
Proof.
  unfold handlePlayerInput, MainCharacter.jump.
  destruct p as [sup vx vy g sp js grounded].
  destruct (held keys "ArrowLeft" || held keys "a"),
    (held keys "ArrowRight" || held keys "d"),
    (held keys "ArrowUp" || held keys "w"), grounded; reflexivity.
Qed.

(** X13: what the handler does with the keys.  Left (arrow or [a]) wins
    over right (arrow or [d]); with neither the character stops; the
    horizontal velocity is [-speed], [speed] or 0 accordingly.  The jump
    keys act on a grounded character only: an airborne one keeps its
    vertical velocity.  The position and the constants are not touched. *)
Theorem handlePlayerInput_effect (keys : Keys) (p : MainCharacter.t) :
  let p' := handlePlayerInput keys p in
  let left := held keys "ArrowLeft" || held keys "a" in
  let right := held keys "ArrowRight" || held keys "d" in
  let up := held keys "ArrowUp" || held keys "w" in
  MainCharacter.velocityX p'
    = (if left then - MainCharacter.speed p
       else if right then MainCharacter.speed p else 0) /\
  MainCharacter.velocityY p'
    = (if up && MainCharacter.onGround p then MainCharacter.jumpStrength p
       else MainCharacter.velocityY p) /\
  MainCharacter.onGround p' = MainCharacter.onGround p && negb up /\
  MainCharacter.super p' = MainCharacter.super p /\
  MainCharacter.gravity p' = MainCharacter.gravity p /\
  MainCharacter.speed p' = MainCharacter.speed p /\
  MainCharacter.jumpStrength p' = MainCharacter.jumpStrength p.
Proof.
  unfold handlePlayerInput, MainCharacter.jump. cbv zeta.
  destruct p as [sup vx vy g sp js grounded].
  destruct (held keys "ArrowLeft" || held keys "a"),
    (held keys "ArrowRight" || held keys "d"),
    (held keys "ArrowUp" || held keys "w"), grounded; repeat split.
Qed.

(** X14: a key counts as held from its [keydown] to its next [keyup],
    whatever happens to other keys in between, and a key that was never
    pressed is not held. *)
Theorem held_between_events (key other : string) (keys : Keys) :
  key <> other ->
  held (keydown key keys) key = true /\
  held (keyup key keys) key = false /\
  held (keydown other (keydown key keys)) key = true /\
  held (keyup other (keydown key keys)) key = true /\
  held (keydown other (keyup key keys)) key = false /\
  held [] key = false.
Proof.
  intros Hne.
  assert (E : String.eqb other key = false)
    by (apply String.eqb_neq; congruence).
  rewrite !held_keydown, !held_keyup, !held_keydown, String.eqb_refl, E.
  repeat split.
Qed.

Lemma held_between_events_witness :
  held (keyup "ArrowUp" (keydown "ArrowLeft" [])) "ArrowLeft" = true.
Proof.
  apply (held_between_events "ArrowLeft" "ArrowUp" []). discriminate.
Defined.

(** ** startGame and the run *)

(** X15: whatever the size of the image and the random numbers (in
    [[0, 1)]), [startGame] hands the loop a running game with the camera
    at 0 and the latch open; seven platforms, the ground at 690 and six
    more every 100 units up to 80, all 10 high, within 20 units of the
    viewport's sides and above its bottom; and a character centred
    horizontally, at [700 - 2 * image.width], airborne and at rest. *)
Theorem startGame_world (imageWidth imageHeight : number) (rnd : nat -> number) :
  (forall i, 0 <= rnd i < 1) ->
  let w := startGame imageWidth imageHeight rnd in
  state w = GameState.mk 0 700 400 GameState.GAME 0 /\
  Level.startScrolling (level w) = false /\
  Forall2 (fun p top => Dimension.y (getDimension p) == top)
    (Level.platforms (level w)) [690; 580; 480; 380; 280; 180; 80] /\
  Forall (fun p =>
            -20 <= Dimension.x (getDimension p) /\
            Dimension.x (getDimension p) + Dimension.width (getDimension p)
              <= 420 /\
            Dimension.height (getDimension p) = 10)
    (Level.platforms (level w)) /\
  aboveBottom (state w) (level w) /\
  MainCharacter.x (player w) + MainCharacter.width (player w) / 2 == 200 /\
  MainCharacter.y (player w) = 700 - imageWidth * 2 /\
  MainCharacter.onGround (player w) = false /\
  MainCharacter.velocityX (player w) = 0 /\
  MainCharacter.velocityY (player w) = 0.
Proof.
  intros Hr w.
  pose proof (Hr 1%nat) as H1. pose proof (Hr 2%nat) as H2.
  pose proof (Hr 3%nat) as H3. pose proof (Hr 4%nat) as H4.
  pose proof (Hr 5%nat) as H5. pose proof (Hr 6%nat) as H6.
  subst w. unfold aboveBottom. cbn.
  unfold getRandomFloat.
  split; [reflexivity|]. split; [reflexivity|].
  split; [repeat (apply Forall2_cons; [reflexivity|]); apply Forall2_nil|].
  split.
  { repeat (apply Forall_cons;
            [unfold Level.spawned, getRandomFloat; cbn;
             split; [lra|split; [lra|reflexivity]]|]).
    apply Forall_nil. }
  split; [repeat (apply Forall_cons; [reflexivity|]); apply Forall_nil|].
  split; [field|]. repeat split.
Qed.

Lemma startGame_world_witness :
  Forall2 (fun p top => Dimension.y (getDimension p) == top)
    (Level.platforms (level startWorld)) [690; 580; 480; 380; 280; 180; 80].
Proof.
  apply (startGame_world 40 40 (fun _ => 0.5)).
  intros _. split; [vm_compute; discriminate|reflexivity].
Defined.

Lemma gameLoop_viewport (handle : MainCharacter.t -> MainCharacter.t)
  (rnd : number) (w : World) :
  let w' := fst (gameLoop handle rnd w) in
  GameState.height (state w') = GameState.height (state w) /\
  GameState.width (state w') = GameState.width (state w) /\
  GameState.points (state w') = GameState.points (state w).
Proof.
  intros w'. subst w'. destruct (GameState.status (state w)) eqn:E.
  - rewrite (gameLoop_GAME handle rnd w E). cbn [fst state].
    rewrite update_state, update_unfold. cbn [snd].
    unfold Level.scroll, MainCharacter.checkLoose.
    destruct (_ || _), (_ >=? _); repeat split.
  - rewrite (gameLoop_LOOSE handle rnd w E). repeat split.
Qed.

(** X16: the viewport is fixed for the whole run: no sequence of frames
    changes [height], [width] or [points] of the game state. *)
Theorem run_keeps_viewport (frames : list Frame) (w : World) :
  GameState.height (state (run frames w)) = GameState.height (state w) /\
  GameState.width (state (run frames w)) = GameState.width (state w) /\
  GameState.points (state (run frames w)) = GameState.points (state w).
Proof.
  revert w. induction frames as [|f frames IH]; intros w; simpl;
    [repeat split|].
  pose proof (gameLoop_viewport (input f) (random f) w) as V. cbv zeta in V.
  destruct (gameLoop (input f) (random f) w) as [w1 again]. cbn [fst] in V.
  destruct V as (Vh & Vw & Vp).
  destruct again.
  - destruct (IH w1) as (Ih & Iw & Ip).
    rewrite Ih, Iw, Ip. repeat split; assumption.
  - repeat split; assumption.
Qed.

Lemma update_size (rnd : number) (player : GameObject.t)
  (s : GameState.t) (l : Level.t) :
  let n := List.length (Level.platforms l) in
  let n' := List.length (Level.platforms (fst (Level.update rnd player s l))) in
  (n' <= n)%nat /\ (0 < n -> 0 < n')%nat.
Proof.
  intros n n'. subst n n'. rewrite update_platforms. cbv zeta.
  set (s1 := snd (Level.scroll player s l)).
  destruct (filter_count (Level.drop s1) (Level.platforms l)) as [Hn He].
  rewrite length_app.
  destruct (existsb _ (Level.platforms l)) eqn:E; simpl in *.
  - lia.
  - rewrite (He eq_refl). lia.
Qed.

Lemma gameLoop_size (handle : MainCharacter.t -> MainCharacter.t)
  (rnd : number) (w : World) :
  let n := List.length (Level.platforms (level w)) in
  let n' := List.length (Level.platforms (level (fst (gameLoop handle rnd w)))) in
  (n' <= n)%nat /\ (0 < n -> 0 < n')%nat.
Proof.
  intros n n'. subst n n'. destruct (GameState.status (state w)) eqn:E.
  - rewrite (gameLoop_GAME handle rnd w E). cbn [fst level].
    apply update_size.
  - rewrite (gameLoop_LOOSE handle rnd w E). cbn [fst level]. lia.
Qed.

(** X17: along a run the level never grows and never runs out of
    platforms once it has one; a game started by [startGame] therefore
    holds between one and seven platforms at every moment. *)
Theorem run_platform_count (frames : list Frame) (w : World)
  (imageWidth imageHeight : number) (rnd : nat -> number) :
  let count := fun v : World => List.length (Level.platforms (level v)) in
  (count (run frames w) <= count w)%nat /\
  (0 < count w -> 0 < count (run frames w))%nat /\
  (1 <= count (run frames (startGame imageWidth imageHeight rnd)) <= 7)%nat.
Proof.
  intros count.
  assert (G : forall fs v,
             (count (run fs v) <= count v)%nat /\
             (0 < count v -> 0 < count (run fs v))%nat).
  { induction fs as [|f fs IH]; intros v; simpl; [lia|].
    pose proof (gameLoop_size (input f) (random f) v) as S. cbv zeta in S.
    fold (count v) in S.
    destruct (gameLoop (input f) (random f) v) as [v1 again]. cbn [fst] in S.
    fold (count v1) in S.
    destruct again; [specialize (IH v1)|]; lia. }
  split; [apply G|]. split; [apply G|].
  destruct (G frames (startGame imageWidth imageHeight rnd)) as [Hle Hpos].
  change (count (startGame imageWidth imageHeight rnd)) with 7%nat in Hle, Hpos.
  lia.
Qed.

Lemma run_platform_count_witness :
  (0 < List.length (Level.platforms (level (run climb startWorld))))%nat.
Proof.
  destruct (run_platform_count climb startWorld 40 40 (fun _ => 0.5))
    as (_ & stays & _).
  apply stays. vm_compute. lia.
Defined.

(** ** What a frame draws *)

(** [gameLoopDrawn] is [gameLoop] with the drawing added. *)
Lemma gameLoopDrawn_gameLoop (canvasWidth canvasHeight : number)
  (handle : MainCharacter.t -> MainCharacter.t) (rnd : number) (w : World) :
  fst (gameLoopDrawn canvasWidth canvasHeight handle rnd w) = gameLoop handle rnd w.
Proof.
  unfold gameLoopDrawn, gameLoop.
  destruct (GameState.status (state w)); [|reflexivity].
  destruct (MainCharacter.update _ _ _) as [p s1].
  destruct (Level.update _ _ _ _) as [l2 s2]. reflexivity.
Qed.

Lemma gameLoopDrawn_GAME (canvasWidth canvasHeight : number)
  (handle : MainCharacter.t -> MainCharacter.t) (rnd : number) (w : World) :
  GameState.status (state w) = GameState.GAME ->
  let pu := MainCharacter.update (Level.platforms (level w)) (state w)
              (handle (player w)) in
  let lu := Level.update rnd (MainCharacter.super (fst pu)) (snd pu) (level w) in
  snd (gameLoopDrawn canvasWidth canvasHeight handle rnd w)
  = clearRect 0 0 canvasWidth canvasHeight
    :: renderLevel (level w) (snd pu) ++ [renderMainCharacter (fst pu) (snd lu)].
Proof.
  intros G pu lu. unfold gameLoopDrawn. rewrite G. fold pu.
  destruct pu as [p s1] eqn:Ep. cbn [fst snd] in lu. fold lu.
  destruct lu as [l2 s2]. reflexivity.
Qed.

(** X18: within one frame the platforms are drawn with the camera offset
    the frame started with, and the character, drawn after
    [Level.update], with the offset the frame ends with: the same offset
    while the level is not latched, 2 more once it is, so that a scrolling
    level shows the character 2 units lower against the platforms than
    the collision placed it. *)
Theorem frame_drawing (canvasWidth canvasHeight : number)
  (handle : MainCharacter.t -> MainCharacter.t) (rnd : number) (w : World) :
  GameState.status (state w) = GameState.GAME ->
  let w' := fst (gameLoop handle rnd w) in
  let before := GameState.cameraOffset (state w) in
  let after := GameState.cameraOffset (state w') in
  snd (gameLoopDrawn canvasWidth canvasHeight handle rnd w)
  = clearRect 0 0 canvasWidth canvasHeight
    :: map (fun p =>
              fillRect (RectGameObject.color p)
                (Dimension.x (getDimension p))
                (Dimension.y (getDimension p) + before)
                (Dimension.width (getDimension p))
                (Dimension.height (getDimension p)))
         (Level.platforms (level w))
    ++ [drawImage 0 0
          (MainCharacter.width (player w')) (MainCharacter.height (player w'))
          (MainCharacter.x (player w')) (MainCharacter.y (player w') + after)
          (MainCharacter.width (player w')) (MainCharacter.height (player w'))] /\
  after = (if Level.startScrolling (level w') then before + 2 else before).
Proof.
  intros G w' before after. split.
  - rewrite (gameLoopDrawn_GAME canvasWidth canvasHeight handle rnd w G).
    subst w' before after. rewrite (gameLoop_GAME handle rnd w G).
    cbn [fst state player]. unfold renderLevel, renderRectGameObject.
    rewrite update_unfold. cbn [snd fst].
    rewrite checkLoose_cameraOffset. reflexivity.
  - apply (running_cameraOffset handle rnd w G).
Qed.

Lemma frame_drawing_witness :
  GameState.cameraOffset
    (state (fst (gameLoop (input leftFrame) (random leftFrame) fallenWorld)))
  = (if Level.startScrolling
          (level (fst (gameLoop (input leftFrame) (random leftFrame) fallenWorld)))
     then GameState.cameraOffset (state fallenWorld) + 2
     else GameState.cameraOffset (state fallenWorld)).
Proof.
  apply (frame_drawing 400 700 (input leftFrame) (random leftFrame) fallenWorld).
  reflexivity.
Defined.

(** X19: on the final screen the button is drawn exactly where clicks are
    taken for it.  The call in status ['LOOSE'] draws, third, a red
    rectangle of 200 by 60, centred horizontally in the viewport, and
    [isMouseOnButton] holds of the points of that rectangle, its border
    included, and of no others; the label is drawn at its centre.  The
    camera offset, set to 0 just before, does not shift it. *)
Theorem button_drawn_where_clicked (canvasWidth canvasHeight : number)
  (handle : MainCharacter.t -> MainCharacter.t) (rnd : number) (w : World)
  (mouseX mouseY : number) :
  GameState.status (state w) = GameState.LOOSE ->
  exists x y lx ly,
    snd (gameLoopDrawn canvasWidth canvasHeight handle rnd w)
    = [clearRect 0 0 canvasWidth canvasHeight;
       fillText "30px Arial" "red" "center" "middle" "You loose"
         (canvasWidth / 2) (canvasHeight / 2);
       fillRect "red" x y 200 60;
       fillText "20px Arial" "white" "center" "middle" "Try Again" lx ly] /\
    x + 200 / 2 == GameState.width (state w) / 2 /\
    lx == x + 200 / 2 /\ ly == y + 60 / 2 /\
    (isMouseOnButton (state w) mouseX mouseY = true <->
     x <= mouseX <= x + 200 /\ y <= mouseY <= y + 60).
Proof.
  intros L. unfold gameLoopDrawn. rewrite L. cbn [snd].
  do 4 eexists. split; [reflexivity|].
  unfold isMouseOnButton, tryAgainButton, RectGameObject.new, buttonX, buttonY,
    buttonWidth, buttonHeight, GameState.set_cameraOffset.
  cbn [GameState.width GameState.height GameState.cameraOffset
       Dimension.x Dimension.y RectGameObject.dimension].
  split; [field|]. split; [field|]. split; [field|].
  rewrite !andb_true_iff, !geb_ge, !leb_le.
  set (x := (GameState.width (state w) - 200) / 2).
  set (y := (GameState.height (state w) - 60) / 2 + 80).
  split; intros; repeat split; lra.
Qed.

Lemma button_drawn_where_clicked_witness :
  exists x y lx ly,
    snd (gameLoopDrawn 400 700 (input leftFrame) (random leftFrame)
           (run [leftFrame] fallenWorld))
    = [clearRect 0 0 400 700;
       fillText "30px Arial" "red" "center" "middle" "You loose"
         (400 / 2) (700 / 2);
       fillRect "red" x y 200 60;
       fillText "20px Arial" "white" "center" "middle" "Try Again" lx ly] /\
    x + 200 / 2 == GameState.width (state (run [leftFrame] fallenWorld)) / 2 /\
    lx == x + 200 / 2 /\ ly == y + 60 / 2 /\
    (isMouseOnButton (state (run [leftFrame] fallenWorld)) 200 430 = true <->
     x <= 200 <= x + 200 /\ y <= 430 <= y + 60).
Proof.
  apply (button_drawn_where_clicked 400 700 (input leftFrame) (random leftFrame)
           (run [leftFrame] fallenWorld) 200 430).
  vm_compute. reflexivity.
Defined.

(** ** Commands and updates together *)



Lemma filter_all {B : Type} (f : B -> bool) (xs : list B) :
  Forall (fun x => f x = true) xs ->
  filter f xs = xs /\ existsb (fun x => negb (f x)) xs = false.
Proof.
  induction 1 as [|x xs Hx _ [IHf IHe]]; simpl; [split; reflexivity|].
  rewrite Hx, IHf, IHe. split; reflexivity.
Qed.

(** X21: before the scrolling starts the level is static.  While the
    latch is open, the character is below the threshold
    ([y > height * 0.65]) and every platform is above the bottom of the
    viewport, [Level.update] returns the level and the game state exactly
    as they were. *)
Theorem update_before_scrolling (rnd : number) (player : GameObject.t)
  (s : GameState.t) (l : Level.t) :
  Level.startScrolling l = false ->
  GameState.height s * 0.65 < GameObject.y player ->
  aboveBottom s l ->
  Level.update rnd player s l = (l, s).
Proof.
  intros Hl Hy Hab. unfold Level.update, Level.scroll.
  apply leb_gt in Hy. rewrite Hl, Hy. cbn [orb].
  rewrite filterPlatforms_filter.
  destruct (filter_all (Level.drop s) (Level.platforms l)) as [Ef Ee].
  { unfold aboveBottom in Hab. apply Forall_forall. intros p Hp.
    rewrite Forall_forall in Hab. apply ltb_lt, Hab, Hp. }
  rewrite Ef, Ee. cbn [orb]. destruct l; reflexivity.
Qed.

Lemma update_before_scrolling_witness :
  Level.update 0.5 (MainCharacter.super (player startWorld)) (state startWorld)
    (level startWorld)
  = (level startWorld, state startWorld).
Proof.
  apply (update_before_scrolling 0.5 (MainCharacter.super (player startWorld))
           (state startWorld) (level startWorld)).
  - reflexivity.
  - reflexivity.
  - unfold aboveBottom. cbn.
    repeat (apply Forall_cons; [reflexivity|]). apply Forall_nil.
Defined.

(** ** The random whole numbers, over binary64 numbers *)

(** X10: [randomIntFromInterval] can return [max + 1].  For the largest
    value of [Math.random()], [1 - 2^-53], the sum [rnd * 2 + 1] of
    [randomIntFromInterval(1, 2)] rounds to 3, and so does its floor. *)
Theorem randomIntFromInterval_overshoots :
  exists rnd : Binary64.number,
    (0 <=? rnd)%float = true /\ (rnd <? 1)%float = true /\
    Binary64.randomIntFromInterval rnd 1%float 2%float = 3%float.
Proof.
  exists Binary64.largestRandom. vm_compute. repeat split.
Qed.

(** X11: the index with which the final screen picks one of its two
    sounds can be 2, one past the last position of the array: it is for
    the largest value of [Math.random()]. *)
Theorem soundIndex_out_of_bounds :
  exists rnd : Binary64.number,
    (0 <=? rnd)%float = true /\ (rnd <? 1)%float = true /\
    Binary64.soundIndex rnd 2%float = 2%float /\
    (Binary64.soundIndex rnd 2 <? 2)%float = false.
Proof.
  exists Binary64.largestRandom. vm_compute. repeat split.
Qed.
